(* ===== verification/_CoqProject ===== *)
-Q . S2P
Prelude.v
Orm.v
Taggit.v
Plugin.v
Config.v
Migrations.v
