(* ===== verification/Prelude.v ===== *)
(** * netbox-ping: a verification development

    The repository (src/netbox_ping) is a NetBox plugin.  It has no
    algorithm of its own: it registers, in the host's database, what its
    buttons need.  Its parts and how they meet:

    - src/netbox_ping/__init__.py: [class Config(PluginConfig)], read by
      NetBox at start-up ([PluginConfig.validate]) and exported as [config];
    - src/netbox_ping/migrations: 0001_initial creates the
      [PluginSettingsModel] table; 0003_add_dns_name_field runs
      [create_dns_name_field], which gets or creates the [Up_Down] custom
      field and attaches it to the IP address type;
    - src/netbox_ping/plugin.py: [initialize_plugin] gets or creates three
      tags, updates or creates three custom links, gets or creates the
      custom fields [Up_Down], [dns_name] and [Auto_discovered] and attaches
      them to IP addresses, then tries to create a tag again.

    The migrations and [initialize_plugin] write the same tables ([CustomField]
    and its [object_types]), through the same ORM; nothing in the supplied
    sources calls [initialize_plugin].

    ** Files

    - Prelude.v (this file): the monad [PyM] of Python code over a state
      with exceptions that keep the state (no rollback: autocommit), its
      [try_except] and [for_each], Hoare triples [triple] (returns) and
      [raises] (raises) with their rules, key lookups [key_is] with their
      lemmas, the hint database [netbox] and the tactics [decide_by_eval]
      and [py_run].
    - Orm.v, Module [Orm]: the environment, the Django/NetBox ORM as the
      plugin calls it (tables with primary keys and id sequences, unique
      constraints, [get], [create], [save], [get_or_create],
      [update_or_create], the [object_types] many-to-many manager with the
      [isinstance] check of [add]); [TableLaws], [table_wf] and [RelLaws]
      are the contract of a table and of a relation, which every lemma about
      the managers assumes and the three concrete tables discharge.
    - Taggit.v, Module [Taggit]: the environment for tags, django-taggit's
      [TagBase.save] ([slugify] and the numbered-slug loop).
    - Plugin.v, Module [Plugin]: [initialize_plugin] of plugin.py, one
      Definition per block ([init_tags] lines 12-35, [get_content_types]
      37-39, [init_ping_ip_link] 41-52, [init_ping_subnet_link] 54-64,
      [init_discover_link] 66-75, [init_up_down_field] 77-92,
      [init_dns_name_field] 94-107, [create_custom_fields] 109-133,
      [create_tags] 135-152) composed in the order of the source, with the
      Python locals ([prefix_type], [up_down_field], [ipaddress_ct]) passed
      from block to block.
    - Config.v, Module [PluginConf]: [Config] and [config] of __init__.py;
      NetBox's [validate] and [get_plugin_config] as the environment.
    - Migrations.v, Module [Migrations]: the two migrations as data
      ([migration_0001], [migration_0003]), [create_dns_name_field]
      over the ORM of Orm.v, and Django's loader ([check_consistency]) and
      executor ([migrate], each migration atomic) as the environment.

    ** Theorems

    - [initialize_plugin] (Plugin.v): when it returns and what it then
      guarantees (C1, C5), the [TypeError] of lines 92 and 107 (C2), the
      [DoesNotExist] of lines 38-39 after the tags were written (C6),
      idempotence (C7), tags never updated (C8), the dead [tags_data] loop
      (C9), [Auto_discovered] never re-attached (C11), its creation (C12),
      and the tag block of lines 12-35, which appends exactly the missing
      tags with the source's values and terminates even when taggit must
      number a slug (C13).
    - Migrations (Migrations.v): no set of migrations holding 0003 but no
      0002 can be loaded (C3); what 0003 does (C10, C14) and that after it
      [initialize_plugin] succeeds exactly when [dns_name] is attached (C4);
      with a stand-in for the missing 0002, [migrate] runs all three in
      order and attaches [Up_Down] (C17).
    - Configuration (Config.v): accepted from NetBox 4.0.0 with its default
      setting (C15), refused below (C16).

    ** Bounds and fuel

    - taggit's [while True] loop is [Taggit.free_slug] with fuel one more
      than the number of existing slugs with the same prefix;
      [Taggit.free_slug_found] proves by pigeonhole that this fuel always
      reaches a free slug, so the model of the loop never runs out.
    - Django's migration plan is [Migrations.run_plan] with fuel the number
      of migrations: each step records one more migration.
    - Primary keys and weights are [Z]; the plugin creates a handful of
      rows, far from the 64-bit bound of a PostgreSQL [bigserial].

    ** Not modelled

    - The scanning engine described by the specification (address
      expansion, probing, name resolution, sweep coordination): the
      repository does not contain it, only the URLs of its views.
    - Of the host: transactions of the caller of [initialize_plugin] (it
      runs in autocommit), signals, change logging, ContentType caching,
      the columns of [CustomField] the code never writes, Unicode in
      [slugify] (ASCII only).  The imports of plugin.py that the function
      never uses (serializers, [ValidationError], [IPAddress], [Prefix])
      have no counterpart.
    - [print] appends its line to [stdout]; the output is not parsed. *)

From stdpp Require Import base list gmap strings.
From Stdlib Require Import String ZArith Lia.

(** ** Results and the monad *)

Inductive result (E A : Type) : Type :=
| Ok (a : A)
| Err (e : E).
Arguments Ok {E A} a.
Arguments Err {E A} e.

Definition PyM (S E A : Type) : Type := S -> result E A * S.

(** The returned value, or [d] when the computation raised. *)
Definition ok_value {E A} (d : A) (r : result E A) : A :=
  match r with Ok a => a | Err _ => d end.

Section Monad.
Context {S E : Type}.

Definition ret {A} (a : A) : PyM S E A := fun s => (Ok a, s).

Definition bind {A B} (m : PyM S E A) (k : A -> PyM S E B) : PyM S E B :=
  fun s =>
    match m s with
    | (Ok a, s') => k a s'
    | (Err e, s') => (Err e, s')
    end.

Definition raise {A} (e : E) : PyM S E A := fun s => (Err e, s).

Definition gets {A} (f : S -> A) : PyM S E A := fun s => (Ok (f s), s).

Definition modify (f : S -> S) : PyM S E unit := fun s => (Ok tt, f s).

(** [try: m except <handles>: h]: only the exceptions [handles] accepts
    are caught; the others propagate with the state reached. *)
Definition try_except {A} (m : PyM S E A) (handles : E -> bool)
    (h : E -> PyM S E A) : PyM S E A :=
  fun s =>
    match m s with
    | (Err e, s') => if handles e then h e s' else (Err e, s')
    | r => r
    end.

(** [for x in xs: body(x)] *)
Fixpoint for_each {X} (xs : list X) (body : X -> PyM S E unit) : PyM S E unit :=
  match xs with
  | [] => ret tt
  | x :: xs' => bind (body x) (fun _ => for_each xs' body)
  end.
End Monad.

Declare Scope py_scope.
Delimit Scope py_scope with py.
Notation "x <- m ;; k" := (bind m (fun x => k))
  (at level 100, m at next level, right associativity) : py_scope.
Notation "m ;; k" := (bind m (fun _ => k))
  (at level 100, right associativity) : py_scope.

(** ** Lookups by key *)

Section Keys.
Context {R K : Type} `{EqDecision K} (key : R -> K).

(** The filter [Model.objects.filter(key=k)] *)
Definition key_is (k : K) (r : R) : bool := bool_decide (key r = k).
End Keys.

(** ** Hoare logic for [PyM] *)

Section Triples.
Context {S E : Type}.

(** Total correctness: from any state satisfying [P], [m] returns
    normally with a value and state satisfying [Q]. *)
Definition triple {A} (P : S -> Prop) (m : PyM S E A) (Q : A -> S -> Prop) : Prop :=
  forall s, P s -> exists a s', m s = (Ok a, s') /\ Q a s'.

(** From any state satisfying [P], [m] raises with an exception and a
    state satisfying [Q]. *)
Definition raises {A} (P : S -> Prop) (m : PyM S E A) (Q : E -> S -> Prop) : Prop :=
  forall s, P s -> exists e s', m s = (Err e, s') /\ Q e s'.

Lemma bind_ok {A B} (m : PyM S E A) (k : A -> PyM S E B) s a s' :
  m s = (Ok a, s') -> bind m k s = k a s'.
Proof. unfold bind. by intros ->. Qed.

Lemma bind_err {A B} (m : PyM S E A) (k : A -> PyM S E B) s e s' :
  m s = (Err e, s') -> bind m k s = (Err e, s').
Proof. unfold bind. by intros ->. Qed.

Lemma bind_gets {A B} (f : S -> A) (k : A -> PyM S E B) s :
  bind (gets f) k s = k (f s) s.
Proof. done. Qed.

Lemma triple_ret {A} (P : S -> Prop) (a : A) (Q : A -> S -> Prop) :
  (forall s, P s -> Q a s) -> triple P (ret a) Q.
Proof. intros H s Hs. exists a, s. auto. Qed.

Lemma triple_bind {A B} P (m : PyM S E A) (k : A -> PyM S E B) R Q :
  triple P m R -> (forall a, triple (R a) (k a) Q) -> triple P (bind m k) Q.
Proof.
  intros Hm Hk s Hs. destruct (Hm s Hs) as (a & s1 & Hrun & HR).
  rewrite (bind_ok _ _ _ _ _ Hrun). by apply Hk.
Qed.

Lemma triple_conseq {A} (P P' : S -> Prop) (m : PyM S E A) (Q Q' : A -> S -> Prop) :
  triple P' m Q' -> (forall s, P s -> P' s) -> (forall a s, Q' a s -> Q a s) ->
  triple P m Q.
Proof.
  intros Hm HP HQ s Hs. destruct (Hm s (HP s Hs)) as (a & s' & ? & ?). eauto.
Qed.

Lemma triple_exists {A X} (P : X -> S -> Prop) (m : PyM S E A) Q :
  (forall x, triple (P x) m Q) -> triple (fun s => exists x, P x s) m Q.
Proof. intros H s [x Hx]. by apply (H x). Qed.

Lemma triple_pure {A} (φ : Prop) (P : S -> Prop) (m : PyM S E A) Q :
  (φ -> triple P m Q) -> triple (fun s => φ /\ P s) m Q.
Proof. intros H s [Hφ Hs]. by apply H. Qed.

Lemma triple_for_each {X} (I : S -> Prop) (xs : list X) (body : X -> PyM S E unit) :
  (forall x, In x xs -> triple I (body x) (fun _ => I)) ->
  triple I (for_each xs body) (fun _ => I).
Proof.
  induction xs as [|x xs IH]; intros Hb; simpl.
  - by apply triple_ret.
  - eapply triple_bind; [apply Hb; left; done|].
    intros u. apply IH. intros y Hy. apply Hb. by right.
Qed.

Lemma triple_try_ok {A} P (m : PyM S E A) hd h Q :
  triple P m Q -> triple P (try_except m hd h) Q.
Proof.
  intros Hm s Hs. destruct (Hm s Hs) as (a & s' & Hrun & HQ).
  exists a, s'. unfold try_except. by rewrite Hrun.
Qed.

Lemma triple_try_caught {A} P (m : PyM S E A) hd h R Q :
  raises P m (fun e s => hd e = true /\ R e s) ->
  (forall e, triple (R e) (h e) Q) ->
  triple P (try_except m hd h) Q.
Proof.
  intros Hm Hh s Hs. destruct (Hm s Hs) as (e & s' & Hrun & Hhd & HR).
  unfold try_except. rewrite Hrun, Hhd. by apply (Hh e).
Qed.

Lemma raises_raise {A} (P : S -> Prop) (e : E) (Q : E -> S -> Prop) :
  (forall s, P s -> Q e s) -> raises P (@raise S E A e) Q.
Proof. intros H s Hs. exists e, s. auto. Qed.

Lemma raises_bind_now {A B} P (m : PyM S E A) (k : A -> PyM S E B) Q :
  raises P m Q -> raises P (bind m k) Q.
Proof.
  intros Hm s Hs. destruct (Hm s Hs) as (e & s' & Hrun & HQ).
  exists e, s'. by rewrite (bind_err _ _ _ _ _ Hrun).
Qed.

Lemma raises_bind_later {A B} P (m : PyM S E A) (k : A -> PyM S E B) R Q :
  triple P m R -> (forall a, raises (R a) (k a) Q) -> raises P (bind m k) Q.
Proof.
  intros Hm Hk s Hs. destruct (Hm s Hs) as (a & s1 & Hrun & HR).
  rewrite (bind_ok _ _ _ _ _ Hrun). by apply Hk.
Qed.

Lemma raises_conseq {A} (P P' : S -> Prop) (m : PyM S E A) (Q Q' : E -> S -> Prop) :
  raises P' m Q' -> (forall s, P s -> P' s) -> (forall e s, Q' e s -> Q e s) ->
  raises P m Q.
Proof.
  intros Hm HP HQ s Hs. destruct (Hm s (HP s Hs)) as (e & s' & ? & ?). eauto.
Qed.

Lemma raises_try_uncaught {A} P (m : PyM S E A) hd h Q :
  raises P m (fun e s => hd e = false /\ Q e s) ->
  raises P (try_except m hd h) Q.
Proof.
  intros Hm s Hs. destruct (Hm s Hs) as (e & s' & Hrun & Hhd & HQ).
  exists e, s'. unfold try_except. by rewrite Hrun, Hhd.
Qed.
End Triples.

(** ** Strings *)

Lemma str_eqb_refl (x : string) : String.eqb x x = true.
Proof. apply String.eqb_refl. Qed.

Lemma str_eqb_true (x y : string) : String.eqb x y = true <-> x = y.
Proof. apply String.eqb_eq. Qed.

Lemma str_eqb_false (x y : string) : x <> y -> String.eqb x y = false.
Proof. apply String.eqb_neq. Qed.

(** ** Lists: lookups by a key that is unique in the list *)

Section Unique.
Context {R K : Type} `{EqDecision K} (key : R -> K).

Lemma filter_key_nil (k : K) (l : list R) :
  ~ In k (map key l) -> List.filter (key_is key k) l = [].
Proof.
  induction l as [|r l IH]; simpl; [done|]. intros Hn.
  unfold key_is at 1. rewrite bool_decide_false; [apply IH; tauto|].
  intros Heq. apply Hn. by left.
Qed.

Lemma filter_key_single (k : K) (r : R) (l : list R) :
  NoDup (map key l) -> In r l -> key r = k -> List.filter (key_is key k) l = [r].
Proof.
  induction l as [|r' l IH]; simpl; [done|]. intros Hnd Hin Hk.
  apply NoDup_cons in Hnd as [Hnotin Hnd].
  destruct Hin as [Heq|Hin].
  - subst r'. unfold key_is at 1. rewrite bool_decide_true by done. f_equal.
    apply filter_key_nil. rewrite <- Hk. intros Hin.
    apply Hnotin. by apply list_elem_of_In.
  - unfold key_is at 1. rewrite bool_decide_false; [by apply IH|].
    intros Heq. apply Hnotin. apply list_elem_of_In.
    rewrite Heq, <- Hk. by apply in_map.
Qed.

Lemma filter_key_in (k : K) (r : R) (l : list R) :
  In r (List.filter (key_is key k) l) -> In r l /\ key r = k.
Proof. rewrite filter_In. unfold key_is. by rewrite bool_decide_eq_true. Qed.

Lemma in_map_key (k : K) (l : list R) :
  In k (map key l) <-> exists r, In r l /\ key r = k.
Proof. rewrite in_map_iff. firstorder. Qed.
End Unique.

Lemma NoDup_map_app {R X} (f : R -> X) (l : list R) (r : R) :
  NoDup (map f l) -> ~ In (f r) (map f l) -> NoDup (map f (l ++ [r])).
Proof.
  intros Hnd Hn. rewrite map_app. simpl.
  apply NoDup_app. split; [done|]. split; [|apply NoDup_singleton].
  intros x Hx Hx'. apply list_elem_of_singleton in Hx'. subst.
  apply Hn. by apply list_elem_of_In.
Qed.

Lemma find_none_intro {A} (f : A -> bool) (l : list A) :
  (forall x, In x l -> f x = false) -> List.find f l = None.
Proof.
  induction l as [|x l IH]; simpl; intros H; [done|].
  rewrite (H x (or_introl eq_refl)). apply IH. eauto.
Qed.

(** Two elements of [l] with the same image under a map that is
    injective on [l] are equal. *)
Lemma NoDup_map_inj_in {A B} (f : A -> B) (l : list A) (x y : A) :
  NoDup (map f l) -> In x l -> In y l -> f x = f y -> x = y.
Proof.
  induction l as [|z l IH]; simpl; [done|].
  intros Hnd Hx Hy Hf. apply NoDup_cons in Hnd as [Hz Hnd].
  destruct Hx as [<-|Hx], Hy as [<-|Hy]; auto.
  - destruct Hz. apply list_elem_of_In. rewrite Hf. by apply in_map.
  - destruct Hz. apply list_elem_of_In. rewrite <- Hf. by apply in_map.
Qed.

(** ** Automation *)

Create HintDb netbox.
Create Rewrite HintDb netbox_rw.
#[export] Hint Resolve triple_ret raises_raise str_eqb_refl : netbox.
#[export] Hint Rewrite str_eqb_refl : netbox_rw.

(** Discharge a decidable proposition about closed data by evaluation. *)
Ltac decide_by_eval := apply (bool_decide_unpack _); vm_compute; reflexivity.

(** Run a closed [PyM] computation step by step. *)
Ltac py_run :=
  repeat (unfold bind, ret, raise, gets, modify, try_except; simpl).
