(* ===== verification/Orm.v ===== *)
(** * Orm: the host ORM as netbox-ping uses it

    The plugin (src/netbox_ping/plugin.py) changes nothing of its own: every
    effect is a call into the ORM of the host application (Django models of
    NetBox: [Tag], [CustomLink], [CustomField], [ContentType] and its proxy
    [ObjectType]).  This file models that host layer, from the behaviour of
    the Django and NetBox code the plugin calls, at the precision the
    plugin's behaviour depends on:

    - a database [Db] with one table per model (rows as records carrying
      their primary key, in insertion order) and one id sequence per table;
      a failed INSERT still consumes a sequence value (PostgreSQL);
    - unique constraints ([name] of every model, [slug] of [Tag]) checked on
      every INSERT and UPDATE, raising [IntegrityError];
    - [objects_get] (raises [DoesNotExist] or [MultipleObjectsReturned]),
      [objects_create], [objects_save], [get_or_create] and
      [update_or_create] with the retry-after-IntegrityError of Django;
    - many-to-many managers [m2m_add], [m2m_set], [m2m_filter_exists] over
      the [object_types] relation, including the [isinstance] check of
      [add]: an instance of another model class raises [TypeError];
    - the standard output the plugin prints to.

    Nothing here is code of the repository; the plugin's own code is
    modelled in Plugin.v on top of these operations. *)

From S2P Require Import Prelude.
From stdpp Require Import base list gmap strings.
From Stdlib Require Import String ZArith Lia.

Open Scope string_scope.
Open Scope Z_scope.

Module Orm.

(** ** Python classes and exceptions *)

(** The model classes whose instances the plugin passes around.
    [ObjectType] is a proxy subclass of [ContentType] (core.ObjectType). *)
Inductive PyClass := ContentTypeCls | ObjectTypeCls | TagCls | CustomLinkCls | CustomFieldCls.

#[export] Instance PyClass_eq_dec : EqDecision PyClass.
Proof. solve_decision. Defined.

Definition class_name (c : PyClass) : string :=
  match c with
  | ContentTypeCls => "ContentType" | ObjectTypeCls => "ObjectType"
  | TagCls => "Tag" | CustomLinkCls => "CustomLink" | CustomFieldCls => "CustomField"
  end.

(** [isinstance(obj, d)] for an object of class [c]. *)
Definition is_subclass (c d : PyClass) : bool :=
  bool_decide (c = d) || bool_decide (c = ObjectTypeCls /\ d = ContentTypeCls).

Inductive exn :=
| DoesNotExist (model : string)
| MultipleObjectsReturned (model : string)
| IntegrityError (constraint : string)
| TypeError (msg : string).

#[export] Instance exn_eq_dec : EqDecision exn.
Proof. solve_decision. Defined.

Definition is_DoesNotExist (model : string) (e : exn) : bool :=
  match e with DoesNotExist m => bool_decide (m = model) | _ => false end.

Definition is_IntegrityError (e : exn) : bool :=
  match e with IntegrityError _ => true | _ => false end.

(** [str(e)] *)
Definition exn_str (e : exn) : string :=
  match e with
  | DoesNotExist m => m ++ " matching query does not exist."
  | MultipleObjectsReturned m => "get() returned more than one " ++ m
  | IntegrityError c => "duplicate key value violates unique constraint " ++ c
  | TypeError m => m
  end.

(** A Python value passed to a many-to-many manager: a model instance of
    some class, or a bare primary key. *)
Inductive PyObj := Inst (cls : PyClass) (pk : Z) | PkVal (pk : Z).

(** ** Rows *)

Record ContentType := mkContentType {
  ct_id : Z; ct_app_label : string; ct_model : string }.

Record Tag := mkTag {
  tag_pk : Z; tag_name : string; tag_slug : string;
  tag_description : string; tag_color : string }.

Record CustomLink := mkCustomLink {
  cl_pk : Z; cl_name : string; cl_link_text : string; cl_link_url : string;
  cl_weight : Z; cl_object_types : gset Z }.

Record CustomField := mkCustomField {
  cf_pk : Z; cf_name : string; cf_type : string; cf_label : string;
  cf_description : string; cf_required : bool; cf_filter_logic : string;
  cf_ui_visible : string; cf_ui_editable : string; cf_is_cloneable : bool;
  cf_weight : Z; cf_object_types : gset Z }.

Record Db := mkDb {
  content_types : list ContentType;
  tags : list Tag; tag_seq : Z;
  custom_links : list CustomLink; link_seq : Z;
  custom_fields : list CustomField; field_seq : Z;
  stdout : list string }.

Abbreviation M := (PyM Db exn).

(** ** Tables *)

(** What the generic manager code needs of a model: its rows, its id
    sequence, its primary key and its unique constraints. *)
Record Table (R : Type) := {
  tbl_model : string;
  tbl_rows : Db -> list R;
  tbl_set_rows : list R -> Db -> Db;
  tbl_seq : Db -> Z;
  tbl_set_seq : Z -> Db -> Db;
  tbl_pk : R -> Z;
  tbl_with_pk : Z -> R -> R;
  tbl_unique : list (string * (R -> string)) }.
Arguments tbl_model {R} t.
Arguments tbl_rows {R} t s.
Arguments tbl_set_rows {R} t l s.
Arguments tbl_seq {R} t s.
Arguments tbl_set_seq {R} t n s.
Arguments tbl_pk {R} t r.
Arguments tbl_with_pk {R} t n r.
Arguments tbl_unique {R} t.

Definition tag_table : Table Tag := {|
  tbl_model := "Tag";
  tbl_rows := tags;
  tbl_set_rows := fun l s => mkDb (content_types s) l (tag_seq s) (custom_links s)
                    (link_seq s) (custom_fields s) (field_seq s) (stdout s);
  tbl_seq := tag_seq;
  tbl_set_seq := fun n s => mkDb (content_types s) (tags s) n (custom_links s)
                    (link_seq s) (custom_fields s) (field_seq s) (stdout s);
  tbl_pk := tag_pk;
  tbl_with_pk := fun n t => mkTag n (tag_name t) (tag_slug t) (tag_description t) (tag_color t);
  tbl_unique := [("extras_tag_name_key", tag_name); ("extras_tag_slug_key", tag_slug)] |}.

Definition link_table : Table CustomLink := {|
  tbl_model := "CustomLink";
  tbl_rows := custom_links;
  tbl_set_rows := fun l s => mkDb (content_types s) (tags s) (tag_seq s) l
                    (link_seq s) (custom_fields s) (field_seq s) (stdout s);
  tbl_seq := link_seq;
  tbl_set_seq := fun n s => mkDb (content_types s) (tags s) (tag_seq s) (custom_links s)
                    n (custom_fields s) (field_seq s) (stdout s);
  tbl_pk := cl_pk;
  tbl_with_pk := fun n l => mkCustomLink n (cl_name l) (cl_link_text l) (cl_link_url l)
                    (cl_weight l) (cl_object_types l);
  tbl_unique := [("extras_customlink_name_key", cl_name)] |}.

Definition field_table : Table CustomField := {|
  tbl_model := "CustomField";
  tbl_rows := custom_fields;
  tbl_set_rows := fun l s => mkDb (content_types s) (tags s) (tag_seq s) (custom_links s)
                    (link_seq s) l (field_seq s) (stdout s);
  tbl_seq := field_seq;
  tbl_set_seq := fun n s => mkDb (content_types s) (tags s) (tag_seq s) (custom_links s)
                    (link_seq s) (custom_fields s) n (stdout s);
  tbl_pk := cf_pk;
  tbl_with_pk := fun n f => mkCustomField n (cf_name f) (cf_type f) (cf_label f)
                    (cf_description f) (cf_required f) (cf_filter_logic f) (cf_ui_visible f)
                    (cf_ui_editable f) (cf_is_cloneable f) (cf_weight f) (cf_object_types f);
  tbl_unique := [("extras_customfield_name_key", cf_name)] |}.

(** [print(msg)] *)
Definition print (msg : string) : M unit :=
  modify (fun s => mkDb (content_types s) (tags s) (tag_seq s) (custom_links s)
                     (link_seq s) (custom_fields s) (field_seq s) (stdout s ++ [msg])).

(** ** Managers *)

(** [Model.objects.get(lookup)]: exactly one row must match. *)
Definition objects_get {R} (model : string) (rows : Db -> list R) (p : R -> bool) : M R :=
  fun s =>
    match List.filter p (rows s) with
    | [] => (Err (DoesNotExist model), s)
    | [r] => (Ok r, s)
    | _ => (Err (MultipleObjectsReturned model), s)
    end.

Section Manager.
Context {R : Type} (T : Table R).

(** The first unique constraint that [r] would break among [others]. *)
Definition violated (r : R) (others : list R) : option string :=
  fst <$> List.find (fun '(c, key) => existsb (fun o => bool_decide (key o = key r)) others)
                    (tbl_unique T).

(** [obj.save()] of a new instance: INSERT with the next sequence
    value; the sequence advances even when the INSERT is refused. *)
Definition objects_create (r : R) : M R :=
  fun s =>
    let pk := tbl_seq T s in
    let s1 := tbl_set_seq T (pk + 1) s in
    let r' := tbl_with_pk T pk r in
    match violated r' (tbl_rows T s1) with
    | Some c => (Err (IntegrityError c), s1)
    | None => (Ok r', tbl_set_rows T (tbl_rows T s1 ++ [r']) s1)
    end.

(** [obj.save()] of a stored instance: UPDATE of the row with its key. *)
Definition objects_save (r : R) : M unit :=
  fun s =>
    let others := List.filter (fun o => negb (bool_decide (tbl_pk T o = tbl_pk T r))) (tbl_rows T s) in
    match violated r others with
    | Some c => (Err (IntegrityError c), s)
    | None => (Ok tt, tbl_set_rows T
                 (map (fun o => if bool_decide (tbl_pk T o = tbl_pk T r) then r else o)
                      (tbl_rows T s)) s)
    end.

(** [Model.objects.get_or_create(<lookup>, defaults=...)]: [fresh] is
    the instance built from the lookup and the defaults, [create] the
    way the model saves a new instance. *)
Definition get_or_create (p : R -> bool) (fresh : R) (create : R -> M R) : M (R * bool) :=
  let model := tbl_model T in
  try_except (r <- objects_get model (tbl_rows T) p ;; ret (r, false))%py
    (is_DoesNotExist model)
    (fun _ =>
       try_except (r <- create fresh ;; ret (r, true))%py
         is_IntegrityError
         (fun e =>
            try_except (r <- objects_get model (tbl_rows T) p ;; ret (r, false))%py
              (is_DoesNotExist model)
              (fun _ => raise e))).

(** [Model.objects.update_or_create(<lookup>, defaults=...)]: [upd]
    writes the defaults into a found instance, which is then saved. *)
Definition update_or_create (p : R -> bool) (fresh : R) (upd : R -> R) : M (R * bool) :=
  (rc <- get_or_create p fresh objects_create ;;
   let (r, created) := rc in
   if created then ret (r, true)
   else (objects_save (upd r) ;; ret (upd r, false)))%py.
End Manager.

(** ** Many-to-many managers ([obj.object_types]) *)

(** The [object_types] relation of a model, whose target model is
    [ObjectType]. *)
Record Rel (R : Type) := {
  rel_get : R -> gset Z;
  rel_set : gset Z -> R -> R }.
Arguments rel_get {R} r x.
Arguments rel_set {R} r ids x.

Definition link_object_types : Rel CustomLink := {|
  rel_get := cl_object_types;
  rel_set := fun ids l => mkCustomLink (cl_pk l) (cl_name l) (cl_link_text l)
                            (cl_link_url l) (cl_weight l) ids |}.

Definition field_object_types : Rel CustomField := {|
  rel_get := cf_object_types;
  rel_set := fun ids f => mkCustomField (cf_pk f) (cf_name f) (cf_type f) (cf_label f)
                            (cf_description f) (cf_required f) (cf_filter_logic f)
                            (cf_ui_visible f) (cf_ui_editable f) (cf_is_cloneable f)
                            (cf_weight f) ids |}.

(** The target model of every [object_types] relation. *)
Definition rel_target : PyClass := ObjectTypeCls.

(** [_get_target_ids]: an instance must be an instance of the target
    model, anything else is taken as a primary key. *)
Definition target_id (o : PyObj) : result exn Z :=
  match o with
  | Inst c pk =>
      if is_subclass c rel_target then Ok pk
      else Err (TypeError ("'" ++ class_name rel_target ++ "' instance expected, got <"
                           ++ class_name c ++ ">"))
  | PkVal pk => Ok pk
  end.

Fixpoint target_ids (os : list PyObj) : result exn (list Z) :=
  match os with
  | [] => Ok []
  | o :: os' =>
      match target_id o with
      | Err e => Err e
      | Ok i => match target_ids os' with Err e => Err e | Ok ids => Ok (i :: ids) end
      end
  end.

Section Relation.
Context {R : Type} (T : Table R) (rel : Rel R).

(** Rewrite the relation of the stored row with the key of [owner]. *)
Definition rel_update (owner : R) (f : gset Z -> gset Z) : M unit :=
  modify (fun s => tbl_set_rows T
    (map (fun o => if bool_decide (tbl_pk T o = tbl_pk T owner)
                   then rel_set rel (f (rel_get rel o)) o else o) (tbl_rows T s)) s).

(** [owner.object_types.add( *objs )] *)
Definition m2m_add (owner : R) (objs : list PyObj) : M unit :=
  match target_ids objs with
  | Err e => raise e
  | Ok ids => rel_update owner (fun old => old ∪ list_to_set ids)
  end.

(** [owner.object_types.set(objs)] *)
Definition m2m_set (owner : R) (objs : list PyObj) : M unit :=
  match target_ids objs with
  | Err e => raise e
  | Ok ids => rel_update owner (fun _ => list_to_set ids)
  end.

(** [owner.object_types.filter(id=i).exists()], read from the database. *)
Definition m2m_filter_exists (owner : R) (i : Z) : M bool :=
  gets (fun s => existsb (fun o => bool_decide (tbl_pk T o = tbl_pk T owner)
                                   && bool_decide (i ∈ rel_get rel o)) (tbl_rows T s)).
End Relation.

(** [ContentType.objects.get(app_label=a, model=m)] and the same query
    through the proxy model [ObjectType]: one table, two classes of
    instances. *)
Definition ct_key (c : ContentType) : string * string := (ct_app_label c, ct_model c).

Definition content_type_get (cls : PyClass) (app model : string) : M PyObj :=
  (c <- objects_get (class_name cls) content_types (key_is ct_key (app, model)) ;;
   ret (Inst cls (ct_id c)))%py.

(** ** Well-formed tables and relation laws *)

Section Laws.
Context {R : Type} (T : Table R).

(** The accessors of a table behave as record fields. *)
Record TableLaws : Prop := {
  law_rows_set_rows : forall l s, tbl_rows T (tbl_set_rows T l s) = l;
  law_rows_set_seq : forall n s, tbl_rows T (tbl_set_seq T n s) = tbl_rows T s;
  law_seq_set_rows : forall l s, tbl_seq T (tbl_set_rows T l s) = tbl_seq T s;
  law_seq_set_seq : forall n s, tbl_seq T (tbl_set_seq T n s) = n;
  law_pk_with_pk : forall n r, tbl_pk T (tbl_with_pk T n r) = n;
  law_key_with_pk : forall n r ck, In ck (tbl_unique T) -> snd ck (tbl_with_pk T n r) = snd ck r }.

(** The table invariant: primary keys are distinct and below the
    sequence, and every unique constraint holds. *)
Definition table_wf (s : Db) : Prop :=
  NoDup (map (tbl_pk T) (tbl_rows T s)) /\
  Forall (fun r => tbl_pk T r < tbl_seq T s) (tbl_rows T s) /\
  Forall (fun ck => NoDup (map (snd ck) (tbl_rows T s))) (tbl_unique T).

(** No unique constraint of [r] clashes with [rows]. *)
Definition fresh_keys (r : R) (rows : list R) : Prop :=
  Forall (fun ck => ~ In (snd ck r) (map (snd ck) rows)) (tbl_unique T).

Definition created_row (s : Db) (r : R) : R := tbl_with_pk T (tbl_seq T s) r.

Definition after_create (s : Db) (r : R) : Db :=
  tbl_set_rows T (tbl_rows T s ++ [created_row s r]) (tbl_set_seq T (tbl_seq T s + 1) s).

Definition replace_row (r : R) (rows : list R) : list R :=
  map (fun o => if bool_decide (tbl_pk T o = tbl_pk T r) then r else o) rows.
End Laws.

Section RelationLaws.
Context {R : Type} (T : Table R) (rel : Rel R).

Record RelLaws : Prop := {
  rlaw_pk : forall ids r, tbl_pk T (rel_set rel ids r) = tbl_pk T r;
  rlaw_keys : forall ids r ck, In ck (tbl_unique T) -> snd ck (rel_set rel ids r) = snd ck r;
  rlaw_get : forall ids r, rel_get rel (rel_set rel ids r) = ids;
  rlaw_set_get : forall r, rel_set rel (rel_get rel r) r = r }.

Definition rel_rows (owner : R) (f : gset Z -> gset Z) (rows : list R) : list R :=
  map (fun o => if bool_decide (tbl_pk T o = tbl_pk T owner)
                then rel_set rel (f (rel_get rel o)) o else o) rows.
End RelationLaws.

#[export] Instance ContentType_eq_dec : EqDecision ContentType.
Proof. solve_decision. Defined.

#[export] Instance table_wf_dec {R} (T : Table R) s : Decision (table_wf T s).
Proof. unfold table_wf. apply _. Defined.

(** ** Facts about tables *)

Section TableFacts.
Context {R : Type} (T : Table R).

Lemma table_wf_ext s s' :
  tbl_rows T s' = tbl_rows T s -> tbl_seq T s' = tbl_seq T s -> table_wf T s -> table_wf T s'.
Proof. unfold table_wf. by intros -> ->. Qed.

Lemma violated_None (r : R) (others : list R) :
  violated T r others = None <->
  Forall (fun ck => ~ In (snd ck r) (map (snd ck) others)) (tbl_unique T).
Proof.
  unfold violated. rewrite fmap_None, List.Forall_forall.
  setoid_rewrite in_map_iff. split.
  - intros Hf [c key] Hin [o [Ho Hino]]. simpl in *.
    eapply find_none in Hf; [|exact Hin]. simpl in Hf.
    apply not_true_iff_false in Hf. apply Hf, existsb_exists.
    exists o. split; [done|]. by apply bool_decide_eq_true.
  - intros Hall. apply find_none_intro. intros [c key] Hin. simpl.
    apply not_true_iff_false. intros Hex. apply existsb_exists in Hex as [o [Ho Heq]].
    apply bool_decide_eq_true in Heq. apply (Hall _ Hin). simpl. eauto.
Qed.
End TableFacts.

Lemma objects_get_found {R K} `{EqDecision K} model (rows : Db -> list R) (key : R -> K) k r s :
  NoDup (map key (rows s)) -> In r (rows s) -> key r = k ->
  objects_get model rows (key_is key k) s = (Ok r, s).
Proof. intros. unfold objects_get. by rewrite (filter_key_single key k r). Qed.

Lemma objects_get_missing {R K} `{EqDecision K} model (rows : Db -> list R) (key : R -> K) k s :
  ~ In k (map key (rows s)) ->
  objects_get model rows (key_is key k) s = (Err (DoesNotExist model), s).
Proof. intros. unfold objects_get. by rewrite filter_key_nil. Qed.

Section ManagerFacts.
Context {R : Type} (T : Table R) (HT : TableLaws T).

Lemma fresh_keys_with_pk n r rows :
  fresh_keys T r rows -> fresh_keys T (tbl_with_pk T n r) rows.
Proof.
  unfold fresh_keys. rewrite !List.Forall_forall. intros H ck Hck.
  rewrite (law_key_with_pk T HT); auto.
Qed.

Lemma objects_create_ok r s :
  fresh_keys T r (tbl_rows T s) ->
  objects_create T r s = (Ok (created_row T s r), after_create T s r).
Proof.
  intros Hf. unfold objects_create, after_create, created_row.
  rewrite (law_rows_set_seq T HT), (proj2 (violated_None T _ _)); [done|].
  by apply fresh_keys_with_pk.
Qed.

Lemma fresh_keys_of_created r s :
  violated T (created_row T s r) (tbl_rows T s) = None -> fresh_keys T r (tbl_rows T s).
Proof.
  intros Hv. apply violated_None in Hv. unfold fresh_keys in *.
  rewrite List.Forall_forall in *. intros ck Hck.
  rewrite <- (law_key_with_pk T HT (tbl_seq T s) r ck Hck). by apply Hv.
Qed.

Lemma objects_create_clash r s c :
  violated T (created_row T s r) (tbl_rows T s) = Some c ->
  objects_create T r s = (Err (IntegrityError c), tbl_set_seq T (tbl_seq T s + 1) s).
Proof.
  intros Hv. unfold objects_create. rewrite (law_rows_set_seq T HT).
  unfold created_row in Hv. by rewrite Hv.
Qed.

Lemma after_create_wf r s :
  table_wf T s -> fresh_keys T r (tbl_rows T s) -> table_wf T (after_create T s r).
Proof.
  intros (Hpk & Hlt & Hun) Hf. unfold after_create, created_row, table_wf.
  rewrite (law_rows_set_rows T HT), (law_seq_set_rows T HT), (law_seq_set_seq T HT).
  split; [|split].
  - apply NoDup_map_app; [done|]. rewrite (law_pk_with_pk T HT).
    intros Hin. apply in_map_iff in Hin as [o [Ho Hino]].
    rewrite List.Forall_forall in Hlt. specialize (Hlt o Hino). lia.
  - apply List.Forall_app. split.
    + eapply List.Forall_impl; [|exact Hlt]. simpl. lia.
    + constructor; [|done]. rewrite (law_pk_with_pk T HT). lia.
  - unfold fresh_keys in Hf. rewrite List.Forall_forall in Hun, Hf |- *.
    intros ck Hck. apply NoDup_map_app; [auto|].
    rewrite (law_key_with_pk T HT); auto.
Qed.

Lemma table_wf_set_seq s n :
  table_wf T s -> tbl_seq T s <= n -> table_wf T (tbl_set_seq T n s).
Proof.
  intros (Hpk & Hlt & Hun) Hn. unfold table_wf.
  rewrite (law_rows_set_seq T HT), (law_seq_set_seq T HT). split; [done|split; [|done]].
  eapply List.Forall_impl; [|exact Hlt]. simpl. lia.
Qed.

Lemma objects_save_ok r s :
  fresh_keys T r (List.filter (fun o => negb (bool_decide (tbl_pk T o = tbl_pk T r))) (tbl_rows T s)) ->
  objects_save T r s = (Ok tt, tbl_set_rows T (replace_row T r (tbl_rows T s)) s).
Proof. intros Hf. unfold objects_save. by rewrite (proj2 (violated_None T _ _) Hf). Qed.

(** Replacing the row [r] of a well-formed table by [r'] with the same
    primary key keeps every projection on which [r] and [r'] agree. *)
Lemma map_replace_row {B} (f : R -> B) r r' rows :
  NoDup (map (tbl_pk T) rows) -> In r rows -> tbl_pk T r' = tbl_pk T r -> f r' = f r ->
  map f (replace_row T r' rows) = map f rows.
Proof.
  intros Hnd Hin Hpk Hf. unfold replace_row. rewrite map_map.
  apply map_ext_in. intros o Ho. case_bool_decide as Heq; [|done].
  rewrite (NoDup_map_inj_in _ _ o r Hnd Ho Hin); congruence.
Qed.

Lemma replace_row_same r rows :
  NoDup (map (tbl_pk T) rows) -> In r rows -> replace_row T r rows = rows.
Proof.
  intros Hnd Hin. pose proof (map_replace_row id r r rows Hnd Hin eq_refl eq_refl) as H.
  by rewrite !List.map_id in H.
Qed.

Lemma in_replace_row (r' : R) rows o :
  In o (replace_row T r' rows) -> o = r' \/ In o rows.
Proof.
  unfold replace_row. rewrite in_map_iff. intros [x [<- Hx]].
  case_bool_decide; auto.
Qed.

Lemma replace_row_in r r' rows :
  In r rows -> tbl_pk T r' = tbl_pk T r -> In r' (replace_row T r' rows).
Proof.
  intros Hin Hpk. unfold replace_row. apply in_map_iff. exists r.
  rewrite bool_decide_true; auto.
Qed.

Lemma replace_row_keep o r' rows :
  In o rows -> tbl_pk T o <> tbl_pk T r' -> In o (replace_row T r' rows).
Proof.
  intros Hin Hne. unfold replace_row. apply in_map_iff. exists o.
  by rewrite bool_decide_false.
Qed.

(** Saving a row with unchanged key and unique fields is accepted. *)
Lemma save_keys_fresh r r' s :
  table_wf T s -> In r (tbl_rows T s) -> tbl_pk T r' = tbl_pk T r ->
  (forall ck, In ck (tbl_unique T) -> snd ck r' = snd ck r) ->
  fresh_keys T r' (List.filter (fun o => negb (bool_decide (tbl_pk T o = tbl_pk T r'))) (tbl_rows T s)).
Proof.
  intros (Hpk & _ & Hun) Hin Hp Hk. unfold fresh_keys. apply List.Forall_forall.
  intros ck Hck. rewrite in_map_iff. intros [o [Ho Hino]].
  apply filter_In in Hino as [Hino Hneq]. rewrite Hk in Ho by done.
  rewrite List.Forall_forall in Hun.
  rewrite (NoDup_map_inj_in _ _ o r (Hun ck Hck) Hino Hin Ho) in Hneq.
  rewrite Hp in Hneq. by rewrite bool_decide_true in Hneq.
Qed.

Lemma replace_row_wf r r' s :
  table_wf T s -> In r (tbl_rows T s) -> tbl_pk T r' = tbl_pk T r ->
  (forall ck, In ck (tbl_unique T) -> snd ck r' = snd ck r) ->
  table_wf T (tbl_set_rows T (replace_row T r' (tbl_rows T s)) s).
Proof.
  intros (Hpk & Hlt & Hun) Hin Hp Hk. unfold table_wf.
  rewrite (law_rows_set_rows T HT), (law_seq_set_rows T HT).
  rewrite (map_replace_row (tbl_pk T) r) by done. split; [done|split].
  - rewrite List.Forall_forall in Hlt |- *. intros o Ho.
    destruct (in_replace_row _ _ _ Ho) as [->|]; [rewrite Hp|]; auto.
  - rewrite List.Forall_forall in Hun |- *. intros ck Hck.
    rewrite (map_replace_row (snd ck) r); auto.
Qed.
End ManagerFacts.

Section GetOrCreate.
Context {R : Type} (T : Table R) (HT : TableLaws T).
Context (c : string) (key : R -> string) (Hkey : In (c, key) (tbl_unique T)).

Lemma wf_key_nodup s : table_wf T s -> NoDup (map key (tbl_rows T s)).
Proof.
  intros (_ & _ & Hun). rewrite List.Forall_forall in Hun. exact (Hun _ Hkey).
Qed.

(** A row with the looked-up key exists: it is returned, nothing is
    written. *)
Lemma get_or_create_found k r fresh create s :
  table_wf T s -> In r (tbl_rows T s) -> key r = k ->
  get_or_create T (key_is key k) fresh create s = (Ok (r, false), s).
Proof.
  intros Hwf Hin Hk. unfold get_or_create, try_except, bind, ret.
  by rewrite (objects_get_found _ _ key k r) by auto using wf_key_nodup.
Qed.

(** No row has the key: the result of [create] is returned. *)
Lemma get_or_create_new k fresh create s r' s' :
  ~ In k (map key (tbl_rows T s)) -> create fresh s = (Ok r', s') ->
  get_or_create T (key_is key k) fresh create s = (Ok (r', true), s').
Proof.
  intros Hn Hc. unfold get_or_create, try_except, bind, ret.
  rewrite (objects_get_missing _ _ key k) by done. simpl.
  rewrite bool_decide_true by done. by rewrite Hc.
Qed.

Lemma update_or_create_found k r fresh upd s :
  table_wf T s -> In r (tbl_rows T s) -> key r = k ->
  tbl_pk T (upd r) = tbl_pk T r ->
  (forall ck, In ck (tbl_unique T) -> snd ck (upd r) = snd ck r) ->
  update_or_create T (key_is key k) fresh upd s =
    (Ok (upd r, false), tbl_set_rows T (replace_row T (upd r) (tbl_rows T s)) s).
Proof.
  intros Hwf Hin Hk Hp Hu. unfold update_or_create.
  rewrite (bind_ok _ _ _ (r, false) s) by (by apply get_or_create_found).
  unfold bind. rewrite (objects_save_ok T) by (eapply save_keys_fresh; eauto). done.
Qed.

Lemma update_or_create_new k fresh upd s :
  ~ In k (map key (tbl_rows T s)) -> fresh_keys T fresh (tbl_rows T s) ->
  update_or_create T (key_is key k) fresh upd s =
    (Ok (created_row T s fresh, true), after_create T s fresh).
Proof.
  intros Hn Hf. unfold update_or_create.
  rewrite (bind_ok _ _ _ (created_row T s fresh, true) (after_create T s fresh)); [done|].
  apply get_or_create_new; [done|]. by apply objects_create_ok.
Qed.
End GetOrCreate.

(** ** Facts on the many-to-many relations *)

Section RelationFacts.
Context {R : Type} (T : Table R) (HT : TableLaws T) (rel : Rel R) (HR : RelLaws T rel).

Lemma rel_update_run owner f s :
  rel_update T rel owner f s = (Ok tt, tbl_set_rows T (rel_rows T rel owner f (tbl_rows T s)) s).
Proof. done. Qed.

(** Only the relation of the owner's row changes; every unique field
    and primary key stays. *)
Lemma map_rel_rows {B} (g : R -> B) owner f rows :
  (forall ids o, g (rel_set rel ids o) = g o) -> map g (rel_rows T rel owner f rows) = map g rows.
Proof.
  intros Hg. unfold rel_rows. rewrite map_map. apply map_ext. intros o.
  case_bool_decide; auto.
Qed.

Lemma in_rel_rows owner f rows o :
  In o rows -> In (if bool_decide (tbl_pk T o = tbl_pk T owner)
                  then rel_set rel (f (rel_get rel o)) o else o) (rel_rows T rel owner f rows).
Proof.
  intros Hin. unfold rel_rows. apply in_map_iff. eauto.
Qed.

Lemma rel_rows_in owner f rows o' :
  In o' (rel_rows T rel owner f rows) ->
  exists o, In o rows /\
    o' = if bool_decide (tbl_pk T o = tbl_pk T owner) then rel_set rel (f (rel_get rel o)) o else o.
Proof. unfold rel_rows. rewrite in_map_iff. intros [o [<- Ho]]. eauto. Qed.

Lemma rel_rows_keep owner f rows o :
  In o rows -> tbl_pk T o <> tbl_pk T owner -> In o (rel_rows T rel owner f rows).
Proof.
  intros Hin Hne. pose proof (in_rel_rows owner f rows o Hin) as H.
  by rewrite bool_decide_false in H.
Qed.

Lemma rel_rows_owner owner f rows :
  In owner rows -> In (rel_set rel (f (rel_get rel owner)) owner) (rel_rows T rel owner f rows).
Proof.
  intros Hin. pose proof (in_rel_rows owner f rows owner Hin) as H.
  by rewrite bool_decide_true in H.
Qed.

(** A relation update that does not change the owner's set. *)
Lemma rel_rows_same owner f rows :
  NoDup (map (tbl_pk T) rows) -> In owner rows -> f (rel_get rel owner) = rel_get rel owner ->
  rel_rows T rel owner f rows = rows.
Proof.
  intros Hnd Hin Hf. rewrite <- (List.map_id rows) at 2. unfold rel_rows.
  apply map_ext_in. intros o Ho. case_bool_decide as Heq; [|done].
  rewrite (NoDup_map_inj_in _ _ o owner Hnd Ho Hin Heq), Hf. apply (rlaw_set_get _ _ HR).
Qed.

Lemma rel_update_wf owner f s :
  table_wf T s -> table_wf T (tbl_set_rows T (rel_rows T rel owner f (tbl_rows T s)) s).
Proof.
  intros (Hpk & Hlt & Hun). unfold table_wf.
  rewrite (law_rows_set_rows T HT), (law_seq_set_rows T HT).
  rewrite (map_rel_rows (tbl_pk T)) by apply (rlaw_pk _ _ HR). split; [done|split].
  - rewrite List.Forall_forall in Hlt |- *. intros o' Ho'.
    destruct (rel_rows_in _ _ _ _ Ho') as [o [Ho ->]].
    case_bool_decide; [rewrite (rlaw_pk _ _ HR)|]; auto.
  - rewrite List.Forall_forall in Hun |- *. intros ck Hck.
    rewrite (map_rel_rows (snd ck)); [auto|]. intros. by apply (rlaw_keys _ _ HR).
Qed.

Lemma m2m_filter_exists_run owner i s :
  table_wf T s -> In owner (tbl_rows T s) ->
  m2m_filter_exists T rel owner i s = (Ok (bool_decide (i ∈ rel_get rel owner)), s).
Proof.
  intros (Hpk & _) Hin. unfold m2m_filter_exists, gets. do 2 f_equal.
  destruct (existsb _ _) eqn:E; symmetry.
  - apply bool_decide_eq_true. apply existsb_exists in E as [o [Ho Hb]].
    apply andb_true_iff in Hb as [Hp Hi]. apply bool_decide_eq_true in Hp, Hi.
    by rewrite <- (NoDup_map_inj_in _ _ o owner Hpk Ho Hin Hp).
  - apply bool_decide_eq_false. intros Hi. apply not_true_iff_false in E.
    apply E, existsb_exists. exists owner. split; [done|].
    by rewrite !bool_decide_true.
Qed.
End RelationFacts.

(** [add] and [set] with one object. *)
Lemma m2m_add_one {R} (T : Table R) rel owner o i :
  target_id o = Ok i ->
  m2m_add T rel owner [o] = rel_update T rel owner (fun old => old ∪ list_to_set [i]).
Proof. intros Ho. unfold m2m_add. simpl. by rewrite Ho. Qed.

Lemma m2m_add_type_error {R} (T : Table R) rel owner o e :
  target_id o = Err e -> m2m_add T rel owner [o] = raise e.
Proof. intros Ho. unfold m2m_add. simpl. by rewrite Ho. Qed.

Lemma target_id_content_type i :
  target_id (Inst ContentTypeCls i) =
    Err (TypeError "'ObjectType' instance expected, got <ContentType>").
Proof. reflexivity. Qed.

Lemma target_id_object_type i : target_id (Inst ObjectTypeCls i) = Ok i.
Proof. reflexivity. Qed.

(** ** The three tables satisfy the laws *)

Lemma tag_table_laws : TableLaws tag_table.
Proof. split; try done. intros n r ck Hck. simpl in Hck. intuition subst; done. Qed.
Lemma link_table_laws : TableLaws link_table.
Proof. split; try done. intros n r ck Hck. simpl in Hck. intuition subst; done. Qed.
Lemma field_table_laws : TableLaws field_table.
Proof. split; try done. intros n r ck Hck. simpl in Hck. intuition subst; done. Qed.
Lemma link_rel_laws : RelLaws link_table link_object_types.
Proof.
  split; try done; [|by intros []]. intros ids r ck Hck. simpl in Hck. intuition subst; done.
Qed.
Lemma field_rel_laws : RelLaws field_table field_object_types.
Proof.
  split; try done; [|by intros []]. intros ids r ck Hck. simpl in Hck. intuition subst; done.
Qed.

Lemma union_singleton_in (old : gset Z) i : i ∈ old -> old ∪ list_to_set [i] = old.
Proof. intros Hi. set_solver. Qed.

#[export] Hint Resolve tag_table_laws link_table_laws field_table_laws
  link_rel_laws field_rel_laws : netbox.

End Orm.
