(* ===== verification/Taggit.v ===== *)
(** * Taggit: how a new [Tag] gets its slug

    NetBox's [Tag] inherits [TagBase.save] from django-taggit.  When a new
    tag has no slug (as in [Tag.objects.get_or_create(name=...)] of
    plugin.py), [save] sets [slug = slugify(name)] and tries the INSERT; if
    the database refuses it, it collects the existing slugs that start with
    that slug and tries [slug_1], [slug_2], ... until one is free, then
    inserts again.  A tag created with an explicit slug (the [tags_data]
    loop of plugin.py) is inserted as given.

    - [slugify]: Django's [slugify] on ASCII text (lower case, drop
      everything but word characters, spaces and hyphens, collapse runs of
      hyphens and spaces to one hyphen, strip hyphens and underscores);
    - [free_slug]: the [while True] loop, run with a fuel of one more than
      the number of taken slugs; [free_slug_found] proves that this fuel
      always reaches a free slug, so the loop terminates;
    - [tag_save_new]: the whole [save] of a new tag, and
      [tag_save_new_ok]: it never fails when no tag has the same name. *)

From S2P Require Import Prelude Orm.
From stdpp Require Import base list gmap strings pretty.
From Stdlib Require Import String Ascii ZArith Lia.

Open Scope string_scope.

Module Taggit.
Import Orm.

(** ** Django's slugify on ASCII text *)

Definition code (c : ascii) : nat := nat_of_ascii c.

Definition is_upper (c : ascii) : bool := (65 <=? code c)%nat && (code c <=? 90)%nat.
Definition is_alnum (c : ascii) : bool :=
  ((48 <=? code c)%nat && (code c <=? 57)%nat) || is_upper c ||
  ((97 <=? code c)%nat && (code c <=? 122)%nat).
(** [\w] and [\s] of Python's [re] on ASCII characters. *)
Definition is_word (c : ascii) : bool := is_alnum c || (code c =? 95)%nat.
Definition is_space (c : ascii) : bool :=
  ((9 <=? code c)%nat && (code c <=? 13)%nat) || ((28 <=? code c)%nat && (code c <=? 32)%nat).
Definition is_hyphen (c : ascii) : bool := (code c =? 45)%nat.

Definition lower (c : ascii) : ascii :=
  if is_upper c then ascii_of_nat (code c + 32) else c.

(** [re.sub(r"[-\s]+", "-", value)] *)
Fixpoint collapse (in_run : bool) (l : list ascii) : list ascii :=
  match l with
  | [] => []
  | c :: l' =>
      if is_hyphen c || is_space c then
        if in_run then collapse true l' else "-"%char :: collapse true l'
      else c :: collapse false l'
  end.

Fixpoint drop_while (p : ascii -> bool) (l : list ascii) : list ascii :=
  match l with
  | [] => []
  | c :: l' => if p c then drop_while p l' else l
  end.

(** [.strip("-_")] *)
Definition strip_dash_underscore (l : list ascii) : list ascii :=
  let p c := is_hyphen c || (code c =? 95)%nat in
  rev (drop_while p (rev (drop_while p l))).

Definition slugify (value : string) : string :=
  let l := map lower (list_ascii_of_string value) in
  let l := List.filter (fun c => is_word c || is_space c || is_hyphen c) l in
  string_of_list_ascii (strip_dash_underscore (collapse false l)).

(** ** The free-slug loop of [TagBase.save] *)

(** [slug = self.slugify(self.name, i)]: the base slug with ["_%d" % i]. *)
Definition numbered_slug (base : string) (i : nat) : string := base ++ "_" ++ pretty i.

(** [while True: slug = ...; if slug not in slugs: return slug; i += 1] *)
Fixpoint free_slug (base : string) (slugs : list string) (i fuel : nat) : option string :=
  match fuel with
  | O => None
  | S fuel' =>
      if bool_decide (numbered_slug base i ∈ slugs) then free_slug base slugs (S i) fuel'
      else Some (numbered_slug base i)
  end.

Definition with_slug (sl : string) (t : Tag) : Tag :=
  mkTag (tag_pk t) (tag_name t) sl (tag_description t) (tag_color t).

(** [TagBase.save()] for a tag not yet in the database. *)
Definition tag_save_new (t : Tag) : M Tag :=
  if bool_decide (tag_slug t = "") then
    let base := slugify (tag_name t) in
    try_except (objects_create tag_table (with_slug base t)) is_IntegrityError
      (fun _ =>
         (slugs <- gets (fun s => List.filter (String.prefix base) (map tag_slug (tags s))) ;;
          match free_slug base slugs 1 (S (List.length slugs)) with
          | Some sl => objects_create tag_table (with_slug sl t)
          | None => raise (IntegrityError "extras_tag_slug_key")
          end)%py)
  else objects_create tag_table t.

(** The state after a successful INSERT of [t'] into [tags]. *)
Definition tag_inserted (s : Db) (t' : Tag) (s' : Db) : Prop :=
  exists n, s' = tbl_set_rows tag_table (tags s ++ [t']) (tbl_set_seq tag_table n s).

(** ** The loop terminates with a free slug *)

#[export] Instance numbered_slug_inj base : Inj eq eq (numbered_slug base).
Proof.
  intros i j H. unfold numbered_slug in H.
  apply (inj (String.append base)), (inj (String.append "_")) in H.
  by apply (inj pretty).
Qed.

Lemma prefix_append (b x : string) : String.prefix b (b ++ x) = true.
Proof. induction b as [|c b IH]; [by destruct x|]. simpl. by destruct (ascii_dec c c). Qed.

Lemma free_slug_spec base slugs i fuel sl :
  free_slug base slugs i fuel = Some sl ->
  (sl ∉ slugs) /\ exists j, (i <= j)%nat /\ sl = numbered_slug base j.
Proof.
  revert i. induction fuel as [|fuel IH]; intros i; simpl; [done|].
  case_bool_decide as Hin.
  - intros H. destruct (IH (S i) H) as [Hn [j [Hj ->]]]. split; [done|]. exists j. split; [lia|done].
  - intros [= <-]. split; [done|]. exists i. done.
Qed.

Lemma free_slug_none base slugs i fuel :
  free_slug base slugs i fuel = None ->
  forall j, (i <= j < i + fuel)%nat -> numbered_slug base j ∈ slugs.
Proof.
  revert i. induction fuel as [|fuel IH]; intros i; simpl; [lia|].
  case_bool_decide as Hin; [|done]. intros H j Hj.
  destruct (decide (j = i)) as [->|]; [done|]. apply (IH (S i) H). lia.
Qed.

(** Termination of [while True]: with more candidates than taken slugs,
    the loop stops on a slug that is not taken.  The candidates
    [slug_i], ..., [slug_(i+fuel-1)] are pairwise distinct, so they cannot
    all be among the [length slugs] taken ones. *)
Lemma free_slug_found base slugs i fuel :
  (List.length slugs < fuel)%nat ->
  exists sl, free_slug base slugs i fuel = Some sl /\ (sl ∉ slugs).
Proof.
  intros Hlen. destruct (free_slug base slugs i fuel) as [sl|] eqn:E.
  - exists sl. split; [done|]. by apply (free_slug_spec _ _ _ _ _ E).
  - exfalso. pose proof (free_slug_none _ _ _ _ E) as Hall.
    assert (Hsub : numbered_slug base <$> seq i fuel ⊆+ slugs).
    { apply NoDup_submseteq; [apply NoDup_fmap_2; [apply _|apply NoDup_seq]|].
      intros x Hx. apply list_elem_of_fmap in Hx as [j [-> Hj]].
      apply elem_of_seq in Hj. by apply Hall. }
    apply submseteq_length in Hsub. rewrite length_fmap, length_seq in Hsub. lia.
Qed.

(** ** Saving a new tag *)

Lemma tag_inserted_create r s :
  tag_inserted s (created_row tag_table s r) (after_create tag_table s r).
Proof. by exists (tag_seq s + 1)%Z. Qed.

Lemma slug_free_of_prefix base slugs sl :
  free_slug base (List.filter (String.prefix base) slugs) 1 (S (List.length (List.filter (String.prefix base) slugs))) = Some sl ->
  ~ In sl slugs.
Proof.
  intros H Hin. destruct (free_slug_spec _ _ _ _ _ H) as [Hn [j [_ ->]]].
  apply Hn, list_elem_of_In, filter_In. split; [done|]. apply prefix_append.
Qed.

(** [save()] of a new tag without a slug succeeds whenever no tag has its
    name: the INSERT with [slugify(name)] succeeds, or it clashes on the
    slug and the loop finds a free numbered slug. *)
Lemma tag_save_new_ok t s :
  tag_slug t = "" -> table_wf tag_table s -> ~ In (tag_name t) (map tag_name (tags s)) ->
  exists t' s', tag_save_new t s = (Ok t', s') /\ tag_inserted s t' s' /\
    tag_name t' = tag_name t /\ tag_description t' = tag_description t /\
    tag_color t' = tag_color t /\ table_wf tag_table s'.
Proof.
  intros Hslug Hwf Hname. unfold tag_save_new. rewrite bool_decide_true by done.
  set (base := slugify (tag_name t)).
  destruct (violated tag_table (created_row tag_table s (with_slug base t)) (tags s)) as [c|] eqn:Hv.
  - unfold try_except. rewrite (objects_create_clash _ tag_table_laws _ _ c Hv).
    set (s1 := tbl_set_seq tag_table (tbl_seq tag_table s + 1) s).
    cbv beta iota delta [is_IntegrityError]. rewrite bind_gets. change (tags s1) with (tags s).
    set (slugs := List.filter (String.prefix base) (map tag_slug (tags s))).
    destruct (free_slug_found base slugs 1 (S (List.length slugs))) as [sl [Hsl _]]; [lia|].
    rewrite Hsl. apply slug_free_of_prefix in Hsl.
    assert (Hf : fresh_keys tag_table (with_slug sl t) (tbl_rows tag_table s1)).
    { repeat constructor; simpl; done. }
    rewrite (objects_create_ok _ tag_table_laws _ _ Hf).
    do 2 eexists. split; [done|]. split; [by exists (tag_seq s + 1 + 1)%Z|].
    do 3 (split; [done|]). apply after_create_wf; auto with netbox.
    destruct Hwf as (? & ? & ?). split; [done|]. split; [|done].
    eapply List.Forall_impl; [|eassumption]. simpl. lia.
  - pose proof (fresh_keys_of_created _ tag_table_laws _ _ Hv) as Hf.
    unfold try_except. rewrite (objects_create_ok _ tag_table_laws _ _ Hf).
    do 2 eexists. split; [done|]. split; [apply tag_inserted_create|].
    do 3 (split; [done|]). by apply after_create_wf; auto with netbox.
Qed.

End Taggit.
