(* ===== verification/Plugin.v ===== *)
(** * Plugin: [initialize_plugin] of src/netbox_ping/plugin.py

    [initialize_plugin] registers what the plugin's pages need in the host
    database.  Each Definition below translates one block of the function,
    in order, with the Python locals passed explicitly from block to block:

    - [init_tags] (lines 12-35): [get_or_create] of the tags [online],
      [offline] and [auto-discovered];
    - [get_content_types] (lines 37-39): [ContentType.objects.get] of
      [ipam.ipaddress] and [ipam.prefix];
    - [init_ping_ip_link], [init_ping_subnet_link], [init_discover_link]
      (lines 41-75): [update_or_create] of three custom links and
      [object_types.add] of an [ObjectType];
    - [init_up_down_field] (lines 77-92) and [init_dns_name_field]
      (lines 94-107): [get_or_create] of two custom fields and, when the
      ipaddress type is not yet attached, [object_types.add] of the
      [ContentType] instance [ipaddress_ct];
    - [create_custom_fields] (lines 109-133) and [create_tags]
      (lines 135-152): get-else-create loops that print what they did;
    - [initialize_plugin]: the blocks in sequence. *)

From S2P Require Import Prelude Orm Taggit.
From stdpp Require Import base list gmap strings.
From Stdlib Require Import String ZArith Lia.

Open Scope string_scope.
Open Scope Z_scope.

Module Plugin.
Import Orm Taggit.

(** [x.id] of a model instance passed around as a Python object. *)
Definition obj_pk (o : PyObj) : Z := match o with Inst _ pk => pk | PkVal pk => pk end.

(** ** Tags (lines 12-35) *)

(** [Tag(name=name, description=.., color=..)]: not saved, no slug. *)
Definition tag_defaults (name description color : string) : Tag :=
  mkTag 0 name "" description color.

(** [Tag.objects.get_or_create(name=name, defaults={...})] *)
Definition tag_get_or_create (name description color : string) : M (Tag * bool) :=
  get_or_create tag_table (key_is tag_name name) (tag_defaults name description color)
    tag_save_new.

Definition init_tags : M (Tag * Tag * Tag) :=
  (online_tag <- tag_get_or_create "online" "Device is online" "4CAF50" ;;
   offline_tag <- tag_get_or_create "offline" "Device is offline" "F44336" ;;
   auto_discovered_tag <- tag_get_or_create "auto-discovered"
                            "IP was automatically discovered" "2196F3" ;;
   ret (fst online_tag, fst offline_tag, fst auto_discovered_tag))%py.

(** ** Content types (lines 37-39) *)

Definition get_content_types : M (PyObj * PyObj) :=
  (ipaddress_ct <- content_type_get ContentTypeCls "ipam" "ipaddress" ;;
   prefix_ct <- content_type_get ContentTypeCls "ipam" "prefix" ;;
   ret (ipaddress_ct, prefix_ct))%py.

(** ** Custom links (lines 41-75) *)

Definition link_defaults (name text url : string) (weight : Z) : CustomLink :=
  mkCustomLink 0 name text url weight ∅.

(** [setattr(obj, k, v)] for the [defaults] of [update_or_create]. *)
Definition set_link_fields (text url : string) (weight : Z) (l : CustomLink) : CustomLink :=
  mkCustomLink (cl_pk l) (cl_name l) text url weight (cl_object_types l).

(** [CustomLink.objects.update_or_create(name=name, defaults={...})] *)
Definition link_update_or_create (name text url : string) (weight : Z) : M (CustomLink * bool) :=
  update_or_create link_table (key_is cl_name name) (link_defaults name text url weight)
    (set_link_fields text url weight).

Definition ping_ip_url : string := "/plugins/netbox-ping/ping-ip/{{ object.pk }}/".
Definition ping_subnet_url : string :=
  "/plugins/netbox-ping/scan-prefix/{{ object.prefix }}/?action=ping".
Definition discover_url : string :=
  "/plugins/netbox-ping/scan-prefix/{{ object.prefix }}/?action=scan".

(** Lines 41-52. *)
Definition init_ping_ip_link : M unit :=
  (lc <- link_update_or_create "Ping IP" "Ping" ping_ip_url 100 ;;
   ipaddress_type <- content_type_get ObjectTypeCls "ipam" "ipaddress" ;;
   m2m_add link_table link_object_types (fst lc) [ipaddress_type])%py.

(** Lines 54-64; returns [prefix_type], used again on line 75. *)
Definition init_ping_subnet_link : M PyObj :=
  (lc <- link_update_or_create "Ping Subnet" "Ping Subnet" ping_subnet_url 100 ;;
   prefix_type <- content_type_get ObjectTypeCls "ipam" "prefix" ;;
   m2m_add link_table link_object_types (fst lc) [prefix_type] ;;
   ret prefix_type)%py.

(** Lines 66-75. *)
Definition init_discover_link (prefix_type : PyObj) : M unit :=
  (lc <- link_update_or_create "Discover IPs" "Discover IPs" discover_url 200 ;;
   m2m_add link_table link_object_types (fst lc) [prefix_type])%py.

(** ** Custom fields (lines 77-107) *)

(** [CustomField(name=.., type=.., label=.., description=..)] with the
    model defaults for the other columns. *)
Definition field_defaults (name type label description : string) : CustomField :=
  mkCustomField 0 name type label description false "loose" "always" "yes" false 100 ∅.

Definition field_get_or_create (name type label description : string) : M (CustomField * bool) :=
  get_or_create field_table (key_is cf_name name) (field_defaults name type label description)
    (objects_create field_table).

(** [if not field.object_types.filter(id=ct.id).exists(): field.object_types.add(ct)] *)
Definition attach_if_missing (field : CustomField) (ct : PyObj) : M unit :=
  (ex <- m2m_filter_exists field_table field_object_types field (obj_pk ct) ;;
   if ex then ret tt else m2m_add field_table field_object_types field [ct])%py.

(** Lines 77-92; returns [up_down_field] and the [ipaddress_ct] fetched
    again on line 88. *)
Definition init_up_down_field : M (CustomField * PyObj) :=
  (up_down_field <- field_get_or_create "Up_Down" "boolean" "Up/Down Status"
                      "Current up/down status of the IP" ;;
   ipaddress_ct <- content_type_get ContentTypeCls "ipam" "ipaddress" ;;
   attach_if_missing (fst up_down_field) ipaddress_ct ;;
   ret (fst up_down_field, ipaddress_ct))%py.

(** Lines 94-107. *)
Definition init_dns_name_field (up_down_field : CustomField) (ipaddress_ct : PyObj) : M unit :=
  (dns_name_field <- field_get_or_create "dns_name" "text" "DNS Name"
                       "Resolved DNS name for this IP" ;;
   for_each [up_down_field; fst dns_name_field] (fun field => attach_if_missing field ipaddress_ct))%py.

(** ** The get-else-create loops (lines 109-152) *)

(** [discovered_data] (lines 110-121) as the instance [create] builds. *)
Definition discovered_data : CustomField :=
  mkCustomField 0 "Auto_discovered" "date" "Auto Discovered"
    "Date when this IP was automatically discovered" false "exact" "always" "yes" true 101 ∅.

Definition catch_all (e : exn) : bool := true.

(** Lines 124-133. *)
Definition create_custom_fields (ipaddress_ct : PyObj) : M unit :=
  for_each [discovered_data] (fun cf_data =>
    try_except
      (_ <- objects_get "CustomField" custom_fields (key_is cf_name (cf_name cf_data)) ;; ret tt)%py
      (is_DoesNotExist "CustomField")
      (fun _ =>
         try_except
           (custom_field <- objects_create field_table cf_data ;;
            m2m_set field_table field_object_types custom_field [PkVal (obj_pk ipaddress_ct)] ;;
            print ("Created custom field: " ++ cf_name custom_field))%py
           catch_all
           (fun e => print ("Failed to create custom field: " ++ exn_str e)))).

(** [tags_data] (lines 136-143). *)
Definition tags_data : list Tag :=
  [mkTag 0 "auto-discovered" "auto-discovered" "IP was automatically discovered by scanning" "2196F3"].

(** Lines 145-152. *)
Definition create_tags : M unit :=
  for_each tags_data (fun tag_data =>
    try_except
      (_ <- objects_get "Tag" tags (key_is tag_slug (tag_slug tag_data)) ;; ret tt)%py
      (is_DoesNotExist "Tag")
      (fun _ =>
         try_except
           (tag <- tag_save_new tag_data ;; print ("Created tag: " ++ tag_name tag))%py
           catch_all
           (fun e => print ("Failed to create tag: " ++ exn_str e)))).

(** ** The whole function *)

Definition initialize_plugin : M unit :=
  (_ <- init_tags ;;
   _ <- get_content_types ;;
   init_ping_ip_link ;;
   prefix_type <- init_ping_subnet_link ;;
   init_discover_link prefix_type ;;
   r <- init_up_down_field ;;
   init_dns_name_field (fst r) (snd r) ;;
   create_custom_fields (snd r) ;;
   create_tags)%py.

(** ** What the code establishes, as predicates on the database *)

Definition db_wf (s : Db) : Prop :=
  table_wf tag_table s /\ table_wf link_table s /\ table_wf field_table s /\
  NoDup (map ct_key (content_types s)).

Definition has_tag (name : string) (s : Db) : Prop := In name (map tag_name (tags s)).

Definition has_ct (app model : string) (i : Z) (s : Db) : Prop :=
  In (mkContentType i app model) (content_types s).

(** A custom link with exactly these settings, attached to type [i]. *)
Definition link_ok (name text url : string) (weight i : Z) (s : Db) : Prop :=
  exists l, In l (custom_links s) /\ cl_name l = name /\ cl_link_text l = text /\
    cl_link_url l = url /\ cl_weight l = weight /\ i ∈ cl_object_types l.

Definition has_field (name : string) (s : Db) : Prop := In name (map cf_name (custom_fields s)).

Definition field_attached (name : string) (i : Z) (s : Db) : Prop :=
  exists f, In f (custom_fields s) /\ cf_name f = name /\ i ∈ cf_object_types f.

(** Only the tags table (and its sequence) may differ. *)
Definition tags_only (s s' : Db) : Prop :=
  content_types s' = content_types s /\ custom_links s' = custom_links s /\
  link_seq s' = link_seq s /\ custom_fields s' = custom_fields s /\
  field_seq s' = field_seq s /\ stdout s' = stdout s.

(** Only the custom links table may differ. *)
Definition links_only (s s' : Db) : Prop :=
  content_types s' = content_types s /\ tags s' = tags s /\ tag_seq s' = tag_seq s /\
  custom_fields s' = custom_fields s /\ field_seq s' = field_seq s /\ stdout s' = stdout s.

(** The tables, without sequences and output. *)
Definition tables (s : Db) :=
  (content_types s, tags s, custom_links s, custom_fields s).

(** The registrations [initialize_plugin] promises. *)
Definition init_post (ip pf : Z) (s : Db) : Prop :=
  has_tag "online" s /\ has_tag "offline" s /\ has_tag "auto-discovered" s /\
  link_ok "Ping IP" "Ping" ping_ip_url 100 ip s /\
  link_ok "Ping Subnet" "Ping Subnet" ping_subnet_url 100 pf s /\
  link_ok "Discover IPs" "Discover IPs" discover_url 200 pf s /\
  field_attached "Up_Down" ip s /\ field_attached "dns_name" ip s /\
  has_field "Auto_discovered" s.

(** The values a tag row carries from the source: name, description,
    colour. *)
Definition tag_triple (t : Tag) : string * string * string :=
  (tag_name t, tag_description t, tag_color t).

(** The links whose name is not [name] are all still there. *)
Definition links_kept (name : string) (s s' : Db) : Prop :=
  forall o, In o (custom_links s) -> cl_name o <> name -> In o (custom_links s').

(** Only the custom fields table (and the output) may differ. *)
Definition fields_only (s s' : Db) : Prop :=
  content_types s' = content_types s /\ tags s' = tags s /\ tag_seq s' = tag_seq s /\
  custom_links s' = custom_links s /\ link_seq s' = link_seq s.

(** The message of the [TypeError] raised by [add] of a [ContentType]. *)
Definition content_type_add_error : exn :=
  TypeError "'ObjectType' instance expected, got <ContentType>".

(** The [Auto_discovered] row that lines 129-130 create in state [s]. *)
Definition discovered_row (s : Db) (ip : Z) : CustomField :=
  rel_set field_object_types (list_to_set [ip]) (created_row field_table s discovered_data).

Definition pre_init (ip pf : Z) (s : Db) : Prop :=
  has_ct "ipam" "ipaddress" ip s /\ has_ct "ipam" "prefix" pf s /\
  field_attached "Up_Down" ip s /\ field_attached "dns_name" ip s.

(** One of the two content types the function looks up is missing. *)
Definition missing_ct (s : Db) : Prop :=
  ~ In ("ipam", "ipaddress") (map ct_key (content_types s)) \/
  ~ In ("ipam", "prefix") (map ct_key (content_types s)).

(** ** Sample databases *)

Definition sample_content_types : list ContentType :=
  [mkContentType 7 "ipam" "ipaddress"; mkContentType 8 "ipam" "prefix";
   mkContentType 9 "dcim" "device"].

(** A NetBox database in which no custom field exists yet. *)
Definition fresh_db : Db := mkDb sample_content_types [] 1 [] 1 [] 1 [].

(** A NetBox database without the [ipam.prefix] content type. *)
Definition no_prefix_db : Db := mkDb [mkContentType 7 "ipam" "ipaddress"] [] 1 [] 1 [] 1 [].

(** After the migrations: both fields carry the ipaddress type.  A user
    has edited the [online] tag, the [Ping IP] link is stale, and another
    tag already has the slug [offline]. *)
Definition migrated_db : Db :=
  mkDb sample_content_types
    [mkTag 1 "online" "online" "Host answers" "00FF00"; mkTag 2 "Offline host" "offline" "" "777777"] 3
    [mkCustomLink 1 "Ping IP" "Ping!" "/old/" 5 {[9]}] 2
    [mkCustomField 1 "Up_Down" "boolean" "Up/Down Status" "Current up/down status of the IP"
       false "loose" "always" "yes" false 100 {[7]};
     mkCustomField 2 "dns_name" "text" "DNS Name" "Resolved DNS name for this IP"
       false "loose" "always" "yes" false 100 {[7]}] 3
    [].

(** An [Auto_discovered] field attached to no type. *)
Definition unattached_auto_discovered : CustomField :=
  mkCustomField 3 "Auto_discovered" "date" "Auto Discovered" "" false "exact" "always" "yes" true 101 ∅.

(** As [migrated_db], with [unattached_auto_discovered]. *)
Definition registered_db : Db :=
  mkDb (content_types migrated_db) (tags migrated_db) (tag_seq migrated_db)
    (custom_links migrated_db) (link_seq migrated_db)
    (custom_fields migrated_db ++ [unattached_auto_discovered])%list 4 [].

(** ** Decision procedures for the predicates *)

#[export] Instance field_attached_dec name i s : Decision (field_attached name i s).
Proof.
  destruct (decide (List.Exists (fun f => cf_name f = name /\ i ∈ cf_object_types f)
                      (custom_fields s))) as [H|H]; [left|right];
    rewrite List.Exists_exists in H; unfold field_attached; naive_solver.
Defined.

#[export] Instance db_wf_dec s : Decision (db_wf s).
Proof. unfold db_wf. apply _. Defined.

#[export] Instance has_ct_dec app model i s : Decision (has_ct app model i s).
Proof.
  unfold has_ct. destruct (decide (mkContentType i app model ∈ content_types s)) as [H|H];
    [left|right]; by rewrite <- list_elem_of_In.
Defined.

#[export] Instance has_field_dec name s : Decision (has_field name s).
Proof.
  unfold has_field. destruct (decide (name ∈ map cf_name (custom_fields s))) as [H|H];
    [left|right]; by rewrite <- list_elem_of_In.
Defined.

#[export] Instance pre_init_dec ip pf s : Decision (pre_init ip pf s).
Proof. unfold pre_init. apply _. Defined.

(** ** Tags *)

Lemma tags_only_refl s : tags_only s s.
Proof. by repeat split. Qed.

Lemma tags_only_trans s1 s2 s3 : tags_only s1 s2 -> tags_only s2 s3 -> tags_only s1 s3.
Proof. unfold tags_only. intuition congruence. Qed.

Lemma has_tag_incl name s s' : incl (tags s) (tags s') -> has_tag name s -> has_tag name s'.
Proof. unfold has_tag. intros Hi. apply incl_map, Hi. Qed.

Lemma tag_get_or_create_run name d c s :
  table_wf tag_table s ->
  exists r s', tag_get_or_create name d c s = (Ok r, s') /\ tags_only s s' /\
    table_wf tag_table s' /\ has_tag name s' /\ incl (tags s) (tags s') /\
    (has_tag name s -> s' = s).
Proof.
  intros Hwf. unfold tag_get_or_create.
  destruct (in_dec string_dec name (map tag_name (tags s))) as [Hin|Hn].
  - apply in_map_key in Hin as [r [Hr <-]].
    exists (r, false), s. rewrite (get_or_create_found tag_table "extras_tag_name_key" tag_name
      ltac:(simpl; auto) _ r) by done.
    split; [done|]. split; [apply tags_only_refl|]. split; [done|].
    split; [by apply in_map|]. split; [apply incl_refl|done].
  - destruct (tag_save_new_ok (tag_defaults name d c) s) as (t' & s' & Hrun & [n ->] & Hname & _ & _ & Hwf');
      [done|done|done|].
    eexists (t', true), _. rewrite (get_or_create_new tag_table tag_name _ _ _ _ _ _ Hn Hrun).
    split; [done|]. split; [by repeat split|]. split; [done|].
    split; [|split; [apply incl_appl, incl_refl|done]].
    unfold has_tag. simpl. rewrite map_app. apply in_or_app. right. by left.
Qed.

Lemma init_tags_run s :
  table_wf tag_table s ->
  exists r s', init_tags s = (Ok r, s') /\ tags_only s s' /\ table_wf tag_table s' /\
    has_tag "online" s' /\ has_tag "offline" s' /\ has_tag "auto-discovered" s' /\
    incl (tags s) (tags s') /\
    (has_tag "online" s /\ has_tag "offline" s /\ has_tag "auto-discovered" s -> s' = s).
Proof.
  intros Hwf. unfold init_tags.
  destruct (tag_get_or_create_run "online" "Device is online" "4CAF50" s Hwf)
    as (r1 & s1 & H1 & F1 & W1 & T1 & I1 & E1).
  destruct (tag_get_or_create_run "offline" "Device is offline" "F44336" s1 W1)
    as (r2 & s2 & H2 & F2 & W2 & T2 & I2 & E2).
  destruct (tag_get_or_create_run "auto-discovered" "IP was automatically discovered" "2196F3" s2 W2)
    as (r3 & s3 & H3 & F3 & W3 & T3 & I3 & E3).
  rewrite (bind_ok _ _ _ _ _ H1), (bind_ok _ _ _ _ _ H2), (bind_ok _ _ _ _ _ H3).
  eexists _, s3. split; [done|].
  split; [eauto using tags_only_trans|]. split; [done|].
  split; [eauto using has_tag_incl, incl_tran|]. split; [eauto using has_tag_incl|].
  split; [done|]. split; [eauto using incl_tran|].
  intros (Ho & Hf & Ha). rewrite E3, E2, E1; eauto using has_tag_incl.
Qed.

(** A [get_or_create] of a tag appends the tag with the source's values
    when no tag has that name, and nothing otherwise. *)
Lemma tag_get_or_create_appends name d c s r s' :
  table_wf tag_table s -> tag_get_or_create name d c s = (Ok r, s') ->
  exists l, tags s' = (tags s ++ l)%list /\
    map tag_triple l = if bool_decide (name ∈ map tag_name (tags s)) then [] else [(name, d, c)].
Proof.
  intros Hwf Hrun. unfold tag_get_or_create in Hrun.
  destruct (in_dec string_dec name (map tag_name (tags s))) as [Hin|Hn].
  - rewrite bool_decide_true by (by apply list_elem_of_In). exists []. rewrite app_nil_r.
    apply in_map_key in Hin as [t [Ht <-]].
    rewrite (get_or_create_found tag_table "extras_tag_name_key" tag_name
      ltac:(simpl; auto) _ t) in Hrun by done. by simplify_eq.
  - rewrite bool_decide_false by (by rewrite list_elem_of_In).
    destruct (tag_save_new_ok (tag_defaults name d c) s) as (t' & s'' & Hs & [n ->] & Hname & Hd & Hc & _);
      [done|done|done|].
    rewrite (get_or_create_new tag_table tag_name _ _ _ _ _ _ Hn Hs) in Hrun. simplify_eq.
    exists [t']. split; [done|]. unfold tag_triple. simpl. by rewrite Hname, Hd, Hc.
Qed.

(** Such a step appends no row of another name. *)
Lemma appended_other l (b : bool) name d c n :
  map tag_triple l = (if b then [] else [(name, d, c)]) -> n <> name -> n ∉ map tag_name l.
Proof.
  intros H Hn. destruct b, l as [|t [|]]; simpl in *; try done; [apply not_elem_of_nil|].
  unfold tag_triple in H. simplify_eq. rewrite list_elem_of_singleton. congruence.
Qed.

(** Appending rows of other names does not change whether [n] is taken. *)
Lemma taken_after_append n s s' l :
  tags s' = (tags s ++ l)%list -> n ∉ map tag_name l ->
  bool_decide (n ∈ map tag_name (tags s')) = bool_decide (n ∈ map tag_name (tags s)).
Proof.
  intros -> Hn. apply bool_decide_ext. rewrite map_app, elem_of_app. naive_solver.
Qed.

(** ** Content types *)

Lemma content_type_get_run cls app model i s :
  NoDup (map ct_key (content_types s)) -> has_ct app model i s ->
  content_type_get cls app model s = (Ok (Inst cls i), s).
Proof.
  intros Hnd Hin. unfold content_type_get, bind, ret.
  by rewrite (objects_get_found _ _ ct_key _ _ _ Hnd Hin).
Qed.

Lemma content_type_get_missing cls app model s :
  (forall i, ~ has_ct app model i s) ->
  content_type_get cls app model s = (Err (DoesNotExist (class_name cls)), s).
Proof.
  intros H. unfold content_type_get, bind. rewrite objects_get_missing; [done|].
  intros Hin. apply in_map_key in Hin as [[i a m] [Hin Hk]].
  inversion Hk; subst. by apply (H i).
Qed.

(** The content types are only read: the lookup stays valid across
    writes to the other tables. *)
Lemma content_type_get_frame cls app model i s s' :
  content_types s' = content_types s -> NoDup (map ct_key (content_types s)) ->
  has_ct app model i s -> content_type_get cls app model s' = (Ok (Inst cls i), s').
Proof.
  intros Heq Hnd Hct. apply content_type_get_run; unfold has_ct; by rewrite Heq.
Qed.

(** ** Custom links *)

Lemma links_only_trans s1 s2 s3 : links_only s1 s2 -> links_only s2 s3 -> links_only s1 s3.
Proof. unfold links_only. intuition congruence. Qed.

Lemma links_kept_trans name s1 s2 s3 :
  links_kept name s1 s2 -> links_kept name s2 s3 -> links_kept name s1 s3.
Proof. unfold links_kept. eauto. Qed.

Lemma link_ok_kept name name' text url w i s s' :
  links_kept name s s' -> name' <> name -> link_ok name' text url w i s -> link_ok name' text url w i s'.
Proof.
  intros Hk Hne (l & Hl & Hn & Ht). exists l. split; [apply Hk; congruence|auto].
Qed.

Lemma link_pk_inj s o r :
  table_wf link_table s -> In o (custom_links s) -> In r (custom_links s) ->
  cl_pk o = cl_pk r -> o = r.
Proof. intros (Hpk & _) Ho Hr. by apply (NoDup_map_inj_in _ _ o r Hpk). Qed.

Lemma link_name_inj s o r :
  table_wf link_table s -> In o (custom_links s) -> In r (custom_links s) ->
  cl_name o = cl_name r -> o = r.
Proof.
  intros Hwf Ho Hr. apply (NoDup_map_inj_in cl_name (custom_links s) o r); [|done|done].
  apply (wf_key_nodup link_table "extras_customlink_name_key"); [simpl; auto|done].
Qed.

Lemma set_link_fields_same text url w l :
  cl_link_text l = text -> cl_link_url l = url -> cl_weight l = w -> set_link_fields text url w l = l.
Proof. destruct l; simpl. by intros -> -> ->. Qed.

Lemma link_update_or_create_run name text url w s :
  table_wf link_table s ->
  exists l b s', link_update_or_create name text url w s = (Ok (l, b), s') /\
    In l (custom_links s') /\ cl_name l = name /\ cl_link_text l = text /\
    cl_link_url l = url /\ cl_weight l = w /\
    links_only s s' /\ table_wf link_table s' /\ links_kept name s s' /\
    (forall i, link_ok name text url w i s -> s' = s /\ i ∈ cl_object_types l).
Proof.
  intros Hwf. unfold link_update_or_create.
  destruct (in_dec string_dec name (map cl_name (custom_links s))) as [Hin|Hn].
  - apply in_map_key in Hin as [r [Hr Hname]].
    rewrite (update_or_create_found link_table "extras_customlink_name_key" cl_name
      ltac:(simpl; auto) _ r) by (try done; intros ck [<-|[]]; done).
    eexists _, false, _. split; [done|]. simpl.
    split; [by apply (replace_row_in link_table r)|]. do 4 (split; [done|]).
    split; [by repeat split|].
    split; [apply (replace_row_wf link_table link_table_laws r); auto; by intros ck [<-|[]]|].
    split.
    + intros o Ho Hne. apply replace_row_keep; [done|]. intros Hpk.
      apply Hne. rewrite <- Hname. f_equal. by apply (link_pk_inj s).
    + intros i (l0 & Hl0 & Hn0 & Ht & Hu & Hw & Hi).
      assert (l0 = r) as -> by (apply (link_name_inj s); congruence).
      rewrite set_link_fields_same by done.
      rewrite replace_row_same by (done || apply Hwf). by destruct s.
  - assert (Hf : fresh_keys link_table (link_defaults name text url w) (custom_links s))
      by (constructor; [exact Hn|constructor]).
    rewrite (update_or_create_new link_table link_table_laws cl_name _ _ _ _ Hn Hf).
    eexists _, true, _. split; [done|].
    split; [simpl; apply in_or_app; right; by left|]. do 4 (split; [done|]).
    split; [by repeat split|]. split; [by apply (after_create_wf link_table link_table_laws)|].
    split; [intros o Ho _; simpl; apply in_or_app; by left|].
    intros i (l0 & Hl0 & Hn0 & _). destruct Hn. rewrite <- Hn0. by apply in_map.
Qed.

Lemma link_attach_run l i s :
  table_wf link_table s -> In l (custom_links s) ->
  exists s', m2m_add link_table link_object_types l [Inst ObjectTypeCls i] s = (Ok tt, s') /\
    link_ok (cl_name l) (cl_link_text l) (cl_link_url l) (cl_weight l) i s' /\
    links_only s s' /\ table_wf link_table s' /\ links_kept (cl_name l) s s' /\
    (i ∈ cl_object_types l -> s' = s).
Proof.
  intros Hwf Hl. rewrite (m2m_add_one _ _ _ _ i (target_id_object_type i)), rel_update_run.
  eexists. split; [done|]. split.
  { eexists. split; [apply (rel_rows_owner link_table link_object_types), Hl|].
    simpl. repeat split. set_solver. }
  split; [by repeat split|].
  split; [apply (rel_update_wf _ link_table_laws _ link_rel_laws), Hwf|]. split.
  - intros o Ho Hne. apply (rel_rows_keep link_table); [done|].
    intros Hpk. apply Hne. f_equal. by apply (link_pk_inj s).
  - intros Hi. rewrite (rel_rows_same _ _ link_rel_laws); [by destruct s|apply Hwf|done|].
    by apply union_singleton_in.
Qed.

(** Lines 41-52 register the [Ping IP] link on IP address pages. *)
Lemma init_ping_ip_link_run ip s :
  table_wf link_table s -> NoDup (map ct_key (content_types s)) ->
  has_ct "ipam" "ipaddress" ip s ->
  exists s', init_ping_ip_link s = (Ok tt, s') /\
    link_ok "Ping IP" "Ping" ping_ip_url 100 ip s' /\ links_only s s' /\
    table_wf link_table s' /\ links_kept "Ping IP" s s' /\
    (link_ok "Ping IP" "Ping" ping_ip_url 100 ip s -> s' = s).
Proof.
  intros Hwf Hnd Hct.
  destruct (link_update_or_create_run "Ping IP" "Ping" ping_ip_url 100 s Hwf)
    as (l & b & s1 & H1 & Hl & Hn & Ht & Hu & Hw & F1 & W1 & K1 & S1).
  destruct (link_attach_run l ip s1 W1 Hl) as (s2 & H2 & O2 & F2 & W2 & K2 & S2).
  unfold init_ping_ip_link. rewrite (bind_ok _ _ _ _ _ H1).
  rewrite (bind_ok _ _ _ _ _ (content_type_get_frame ObjectTypeCls _ _ ip s s1 (proj1 F1) Hnd Hct)).
  exists s2. rewrite Hn, Ht, Hu, Hw in *. split; [done|]. split; [done|].
  split; [eauto using links_only_trans|]. split; [done|]. split; [eauto using links_kept_trans|].
  intros Hok. destruct (S1 ip Hok) as [-> Hi]. by apply S2.
Qed.

(** Lines 54-64 register the [Ping Subnet] link on prefix pages. *)
Lemma init_ping_subnet_link_run pf s :
  table_wf link_table s -> NoDup (map ct_key (content_types s)) ->
  has_ct "ipam" "prefix" pf s ->
  exists s', init_ping_subnet_link s = (Ok (Inst ObjectTypeCls pf), s') /\
    link_ok "Ping Subnet" "Ping Subnet" ping_subnet_url 100 pf s' /\ links_only s s' /\
    table_wf link_table s' /\ links_kept "Ping Subnet" s s' /\
    (link_ok "Ping Subnet" "Ping Subnet" ping_subnet_url 100 pf s -> s' = s).
Proof.
  intros Hwf Hnd Hct.
  destruct (link_update_or_create_run "Ping Subnet" "Ping Subnet" ping_subnet_url 100 s Hwf)
    as (l & b & s1 & H1 & Hl & Hn & Ht & Hu & Hw & F1 & W1 & K1 & S1).
  destruct (link_attach_run l pf s1 W1 Hl) as (s2 & H2 & O2 & F2 & W2 & K2 & S2).
  unfold init_ping_subnet_link. rewrite (bind_ok _ _ _ _ _ H1).
  rewrite (bind_ok _ _ _ _ _ (content_type_get_frame ObjectTypeCls _ _ pf s s1 (proj1 F1) Hnd Hct)).
  rewrite (bind_ok _ _ _ _ _ H2).
  exists s2. rewrite Hn, Ht, Hu, Hw in *. split; [done|]. split; [done|].
  split; [eauto using links_only_trans|]. split; [done|]. split; [eauto using links_kept_trans|].
  intros Hok. destruct (S1 pf Hok) as [-> Hi]. by apply S2.
Qed.

(** Lines 66-75 register the [Discover IPs] link on prefix pages. *)
Lemma init_discover_link_run pf s :
  table_wf link_table s ->
  exists s', init_discover_link (Inst ObjectTypeCls pf) s = (Ok tt, s') /\
    link_ok "Discover IPs" "Discover IPs" discover_url 200 pf s' /\ links_only s s' /\
    table_wf link_table s' /\ links_kept "Discover IPs" s s' /\
    (link_ok "Discover IPs" "Discover IPs" discover_url 200 pf s -> s' = s).
Proof.
  intros Hwf.
  destruct (link_update_or_create_run "Discover IPs" "Discover IPs" discover_url 200 s Hwf)
    as (l & b & s1 & H1 & Hl & Hn & Ht & Hu & Hw & F1 & W1 & K1 & S1).
  destruct (link_attach_run l pf s1 W1 Hl) as (s2 & H2 & O2 & F2 & W2 & K2 & S2).
  unfold init_discover_link. rewrite (bind_ok _ _ _ _ _ H1).
  exists s2. rewrite Hn, Ht, Hu, Hw in *. split; [done|]. split; [done|].
  split; [eauto using links_only_trans|]. split; [done|]. split; [eauto using links_kept_trans|].
  intros Hok. destruct (S1 pf Hok) as [-> Hi]. by apply S2.
Qed.

(** ** Custom fields *)

Lemma field_name_inj s o r :
  table_wf field_table s -> In o (custom_fields s) -> In r (custom_fields s) ->
  cf_name o = cf_name r -> o = r.
Proof.
  intros Hwf Ho Hr. apply (NoDup_map_inj_in cf_name (custom_fields s) o r); [|done|done].
  apply (wf_key_nodup field_table "extras_customfield_name_key"); [simpl; auto|done].
Qed.

Lemma field_get_or_create_run name type label desc s :
  table_wf field_table s ->
  exists f b s', field_get_or_create name type label desc s = (Ok (f, b), s') /\
    In f (custom_fields s') /\ cf_name f = name /\ fields_only s s' /\ stdout s' = stdout s /\
    table_wf field_table s' /\ (forall g, In g (custom_fields s') <-> In g (custom_fields s) \/ g = f) /\
    (has_field name s -> s' = s) /\ (~ has_field name s -> cf_object_types f = ∅).
Proof.
  intros Hwf. unfold field_get_or_create.
  destruct (in_dec string_dec name (map cf_name (custom_fields s))) as [Hin|Hn].
  - apply in_map_key in Hin as [r [Hr Hname]].
    rewrite (get_or_create_found field_table "extras_customfield_name_key" cf_name
      ltac:(simpl; auto) _ r) by done.
    eexists _, false, s. do 3 (split; [done|]). split; [by repeat split|].
    do 2 (split; [done|]). split; [intros g; split; [by left|by intros [?| ->]]|]. split; [done|].
    intros []. rewrite <- Hname. by apply in_map.
  - assert (Hf : fresh_keys field_table (field_defaults name type label desc) (custom_fields s))
      by (constructor; [exact Hn|constructor]).
    rewrite (get_or_create_new field_table cf_name _ _ _ _ _ _ Hn
               (objects_create_ok _ field_table_laws _ _ Hf)).
    eexists _, true, _. split; [done|].
    split; [simpl; apply in_or_app; right; by left|]. split; [done|].
    split; [by repeat split|]. split; [done|].
    split; [by apply (after_create_wf field_table field_table_laws)|].
    split; [intros g; simpl; rewrite in_app_iff; simpl; naive_solver|]. split; [done|]. done.
Qed.

(** Lines 91-92 and 106-107: the check reads the database; the [add]
    receives the [ContentType] instance. *)
Lemma attach_if_missing_present f i s :
  table_wf field_table s -> In f (custom_fields s) -> i ∈ cf_object_types f ->
  attach_if_missing f (Inst ContentTypeCls i) s = (Ok tt, s).
Proof.
  intros Hwf Hf Hi. unfold attach_if_missing.
  rewrite (bind_ok _ _ _ _ _ (m2m_filter_exists_run field_table field_object_types f i s Hwf Hf)).
  by rewrite bool_decide_true.
Qed.

Lemma attach_if_missing_absent f i s :
  table_wf field_table s -> In f (custom_fields s) -> i ∉ cf_object_types f ->
  attach_if_missing f (Inst ContentTypeCls i) s = (Err content_type_add_error, s).
Proof.
  intros Hwf Hf Hi. unfold attach_if_missing.
  rewrite (bind_ok _ _ _ _ _ (m2m_filter_exists_run field_table field_object_types f i s Hwf Hf)).
  rewrite bool_decide_false by done. by rewrite (m2m_add_type_error _ _ _ _ _ (target_id_content_type i)).
Qed.

(** The field [name] returned by [get_or_create] carries the type [i]
    exactly when the database had a field [name] with [i] attached. *)
Lemma field_get_or_create_attached name type label desc i s f b s' :
  table_wf field_table s ->
  field_get_or_create name type label desc s = (Ok (f, b), s') ->
  In f (custom_fields s') -> cf_name f = name ->
  (has_field name s -> s' = s) -> (~ has_field name s -> cf_object_types f = ∅) ->
  (i ∈ cf_object_types f <-> field_attached name i s).
Proof.
  intros Hwf _ Hf Hn Hs Hempty.
  destruct (in_dec string_dec name (map cf_name (custom_fields s))) as [Hin|Hno].
  - specialize (Hs Hin). subst s'. split; [intros Hi; by exists f|].
    intros (g & Hg & Hgn & Hgi). by rewrite (field_name_inj s f g) by congruence.
  - rewrite (Hempty Hno). split; [set_solver|]. intros (g & Hg & Hgn & _).
    exfalso. apply Hno. rewrite <- Hgn. by apply in_map.
Qed.

Lemma has_field_of_attached name i s : field_attached name i s -> has_field name s.
Proof. intros (g & Hg & <- & _). by apply in_map. Qed.

(** Lines 77-92 when [Up_Down] already carries the ipaddress type: the
    block writes nothing. *)
Lemma init_up_down_field_ok ip s :
  table_wf field_table s -> NoDup (map ct_key (content_types s)) ->
  has_ct "ipam" "ipaddress" ip s -> field_attached "Up_Down" ip s ->
  exists f, init_up_down_field s = (Ok (f, Inst ContentTypeCls ip), s) /\
    In f (custom_fields s) /\ cf_name f = "Up_Down" /\ ip ∈ cf_object_types f.
Proof.
  intros Hwf Hnd Hct Hatt.
  destruct (field_get_or_create_run "Up_Down" "boolean" "Up/Down Status"
              "Current up/down status of the IP" s Hwf)
    as (f & b & s1 & H1 & Hf & Hn & F1 & O1 & W1 & I1 & S1 & E1).
  assert (Hi : ip ∈ cf_object_types f)
    by exact (proj2 (field_get_or_create_attached _ _ _ _ ip s f b s1 Hwf H1 Hf Hn S1 E1) Hatt).
  rewrite (S1 (has_field_of_attached _ _ _ Hatt)) in *.
  exists f. unfold init_up_down_field. rewrite (bind_ok _ _ _ _ _ H1).
  rewrite (bind_ok _ _ _ _ _ (content_type_get_run ContentTypeCls _ _ ip s Hnd Hct)).
  by rewrite (bind_ok _ _ _ _ _ (attach_if_missing_present f ip s Hwf Hf Hi)).
Qed.

(** Lines 77-92 otherwise: line 92 passes the [ContentType] instance to
    [object_types.add], which expects [ObjectType] instances. *)
Lemma init_up_down_field_type_error ip s :
  table_wf field_table s -> NoDup (map ct_key (content_types s)) ->
  has_ct "ipam" "ipaddress" ip s -> ~ field_attached "Up_Down" ip s ->
  exists s', init_up_down_field s = (Err content_type_add_error, s') /\ fields_only s s' /\
    table_wf field_table s'.
Proof.
  intros Hwf Hnd Hct Hatt.
  destruct (field_get_or_create_run "Up_Down" "boolean" "Up/Down Status"
              "Current up/down status of the IP" s Hwf)
    as (f & b & s1 & H1 & Hf & Hn & F1 & O1 & W1 & I1 & S1 & E1).
  assert (Hi : ip ∉ cf_object_types f)
    by (rewrite (field_get_or_create_attached _ _ _ _ ip s f b s1 Hwf H1 Hf Hn S1 E1); done).
  exists s1. unfold init_up_down_field. rewrite (bind_ok _ _ _ _ _ H1).
  rewrite (bind_ok _ _ _ _ _ (content_type_get_frame ContentTypeCls _ _ ip s s1 (proj1 F1) Hnd Hct)).
  by rewrite (bind_err _ _ _ _ _ (attach_if_missing_absent f ip s1 W1 Hf Hi)).
Qed.

(** Lines 94-107 when both fields carry the ipaddress type. *)
Lemma init_dns_name_field_ok up ip s :
  table_wf field_table s -> In up (custom_fields s) -> ip ∈ cf_object_types up ->
  field_attached "dns_name" ip s ->
  init_dns_name_field up (Inst ContentTypeCls ip) s = (Ok tt, s).
Proof.
  intros Hwf Hup Hi Hatt.
  destruct (field_get_or_create_run "dns_name" "text" "DNS Name"
              "Resolved DNS name for this IP" s Hwf)
    as (f & b & s1 & H1 & Hf & Hn & F1 & O1 & W1 & I1 & S1 & E1).
  assert (Hfi : ip ∈ cf_object_types f)
    by exact (proj2 (field_get_or_create_attached _ _ _ _ ip s f b s1 Hwf H1 Hf Hn S1 E1) Hatt).
  rewrite (S1 (has_field_of_attached _ _ _ Hatt)) in *.
  unfold init_dns_name_field. rewrite (bind_ok _ _ _ _ _ H1). simpl.
  rewrite (bind_ok _ _ _ _ _ (attach_if_missing_present up ip s Hwf Hup Hi)).
  by rewrite (bind_ok _ _ _ _ _ (attach_if_missing_present f ip s Hwf Hf Hfi)).
Qed.

(** Lines 94-107 when [dns_name] lacks the type: line 107 raises. *)
Lemma init_dns_name_field_type_error up ip s :
  table_wf field_table s -> In up (custom_fields s) -> ip ∈ cf_object_types up ->
  ~ field_attached "dns_name" ip s ->
  exists s', init_dns_name_field up (Inst ContentTypeCls ip) s = (Err content_type_add_error, s') /\
    fields_only s s' /\ table_wf field_table s'.
Proof.
  intros Hwf Hup Hi Hatt.
  destruct (field_get_or_create_run "dns_name" "text" "DNS Name"
              "Resolved DNS name for this IP" s Hwf)
    as (f & b & s1 & H1 & Hf & Hn & F1 & O1 & W1 & I1 & S1 & E1).
  assert (Hfi : ip ∉ cf_object_types f)
    by (rewrite (field_get_or_create_attached _ _ _ _ ip s f b s1 Hwf H1 Hf Hn S1 E1); done).
  exists s1. unfold init_dns_name_field. rewrite (bind_ok _ _ _ _ _ H1). simpl.
  rewrite (bind_ok _ _ _ _ _ (attach_if_missing_present up ip s1 W1 (proj2 (I1 _) (or_introl Hup)) Hi)).
  by rewrite (bind_err _ _ _ _ _ (attach_if_missing_absent f ip s1 W1 Hf Hfi)).
Qed.

(** ** The get-else-create loops *)

Lemma create_custom_fields_found ct s :
  table_wf field_table s -> has_field "Auto_discovered" s -> create_custom_fields ct s = (Ok tt, s).
Proof.
  intros Hwf Hin. apply in_map_key in Hin as [r [Hr Hn]].
  unfold create_custom_fields. cbn [for_each]. cbv beta. unfold try_except, bind, ret.
  rewrite (objects_get_found "CustomField" custom_fields cf_name "Auto_discovered" r s);
    [done| |done|done].
  apply (wf_key_nodup field_table "extras_customfield_name_key"); [simpl; auto|done].
Qed.

Lemma rel_rows_last {R} (T : Table R) rel owner f (l : list R) :
  (forall o, In o l -> tbl_pk T o <> tbl_pk T owner) ->
  rel_rows T rel owner f (l ++ [owner])%list = (l ++ [rel_set rel (f (rel_get rel owner)) owner])%list.
Proof.
  intros Hne. unfold rel_rows. rewrite map_app. simpl. rewrite bool_decide_true by done.
  f_equal. rewrite <- (List.map_id l) at 2. apply map_ext_in. intros o Ho.
  by rewrite bool_decide_false by auto.
Qed.

(** Lines 124-133 when [Auto_discovered] does not exist: the field is
    created from [discovered_data], attached to exactly the ipaddress type,
    and the creation is printed. *)
Lemma create_custom_fields_new ip s :
  table_wf field_table s -> ~ has_field "Auto_discovered" s ->
  exists s', create_custom_fields (Inst ContentTypeCls ip) s = (Ok tt, s') /\
    custom_fields s' = (custom_fields s ++ [discovered_row s ip])%list /\
    stdout s' = (stdout s ++ ["Created custom field: Auto_discovered"])%list /\
    fields_only s s' /\ table_wf field_table s'.
Proof.
  intros Hwf Hn.
  assert (Hf : fresh_keys field_table discovered_data (custom_fields s))
    by (constructor; [exact Hn|constructor]).
  unfold create_custom_fields. cbn [for_each]. cbv beta. unfold try_except, bind.
  rewrite (objects_get_missing _ _ cf_name) by done. cbn [is_DoesNotExist].
  rewrite bool_decide_true by done.
  rewrite (objects_create_ok _ field_table_laws _ _ Hf).
  assert (Hlt : forall o, In o (custom_fields s) -> cf_pk o <> field_seq s).
  { destruct Hwf as (_ & Hlt & _). rewrite List.Forall_forall in Hlt.
    intros o Ho. specialize (Hlt o Ho). simpl in Hlt. lia. }
  set (c := created_row field_table s discovered_data).
  set (s2 := after_create field_table s discovered_data).
  assert (Hset : m2m_set field_table field_object_types c [PkVal (obj_pk (Inst ContentTypeCls ip))] s2
    = (Ok tt, tbl_set_rows field_table (custom_fields s ++ [discovered_row s ip])%list s2)).
  { transitivity (@Ok exn unit tt, tbl_set_rows field_table
      (rel_rows field_table field_object_types c (fun _ => list_to_set [ip])
         (custom_fields s ++ [c])%list) s2); [reflexivity|].
    by rewrite (rel_rows_last field_table) by done. }
  assert (W : table_wf field_table
                (tbl_set_rows field_table (custom_fields s ++ [discovered_row s ip])%list s2)).
  { replace (custom_fields s ++ [discovered_row s ip])%list
      with (rel_rows field_table field_object_types c (fun _ => list_to_set [ip]) (tbl_rows field_table s2))
      by (apply (rel_rows_last field_table); done).
    apply (rel_update_wf field_table field_table_laws _ field_rel_laws c _ s2).
    by apply (after_create_wf field_table field_table_laws). }
  rewrite Hset. eexists. split; [reflexivity|].
  split; [done|]. split; [done|]. split; [by repeat split|]. exact W.
Qed.

Lemma tag_name_clash t s :
  In (tag_name t) (map tag_name (tags s)) ->
  violated tag_table t (tags s) = Some "extras_tag_name_key".
Proof.
  intros Hin. unfold violated. simpl.
  destruct (existsb _ (tags s)) eqn:E; [done|]. exfalso.
  apply in_map_key in Hin as [o [Ho Hon]]. apply not_true_iff_false in E.
  apply E, existsb_exists. exists o. split; [done|]. by apply bool_decide_eq_true.
Qed.

(** Lines 145-152 once a tag named [auto-discovered] exists (line 29
    makes sure of it): no tag is ever created.  Either a tag has the slug
    [auto-discovered], or the INSERT clashes on the name, which the
    [except Exception] branch reports. *)
Lemma create_tags_run s :
  table_wf tag_table s -> has_tag "auto-discovered" s ->
  exists s', create_tags s = (Ok tt, s') /\ tables s' = tables s /\
    link_seq s' = link_seq s /\ field_seq s' = field_seq s /\ table_wf tag_table s'.
Proof.
  intros Hwf Hname. unfold create_tags. cbn [for_each tags_data]. cbv beta. unfold try_except, bind.
  destruct (in_dec string_dec "auto-discovered" (map tag_slug (tags s))) as [Hin|Hno].
  - apply in_map_key in Hin as [r [Hr Hs]].
    rewrite (objects_get_found _ _ tag_slug _ r); [by exists s| |done|done].
    apply (wf_key_nodup tag_table "extras_tag_slug_key"); [simpl; auto|done].
  - rewrite (objects_get_missing _ _ tag_slug) by done. cbn [is_DoesNotExist].
    rewrite bool_decide_true by done. unfold tag_save_new.
    rewrite bool_decide_false by done.
    rewrite (objects_create_clash _ tag_table_laws _ _ "extras_tag_name_key");
      [|by apply tag_name_clash].
    eexists. split; [reflexivity|]. do 3 (split; [done|]).
    apply (table_wf_set_seq tag_table tag_table_laws); [done|simpl; lia].
Qed.

(** ** Phases of [initialize_plugin] *)

(** Lines 41-75, followed by any continuation [K]. *)
Lemma init_links_phase ip pf s :
  table_wf link_table s -> NoDup (map ct_key (content_types s)) ->
  has_ct "ipam" "ipaddress" ip s -> has_ct "ipam" "prefix" pf s ->
  exists s', (forall A (K : M A),
      (init_ping_ip_link ;; prefix_type <- init_ping_subnet_link ;;
       init_discover_link prefix_type ;; K)%py s = K s') /\
    links_only s s' /\ table_wf link_table s' /\
    link_ok "Ping IP" "Ping" ping_ip_url 100 ip s' /\
    link_ok "Ping Subnet" "Ping Subnet" ping_subnet_url 100 pf s' /\
    link_ok "Discover IPs" "Discover IPs" discover_url 200 pf s' /\
    (link_ok "Ping IP" "Ping" ping_ip_url 100 ip s ->
     link_ok "Ping Subnet" "Ping Subnet" ping_subnet_url 100 pf s ->
     link_ok "Discover IPs" "Discover IPs" discover_url 200 pf s -> s' = s).
Proof.
  intros Hwf Hnd Hip Hpf.
  destruct (init_ping_ip_link_run ip s Hwf Hnd Hip) as (s1 & H1 & O1 & F1 & W1 & K1 & S1).
  assert (Hpf1 : has_ct "ipam" "prefix" pf s1) by (unfold has_ct; by rewrite (proj1 F1)).
  assert (Hnd1 : NoDup (map ct_key (content_types s1))) by by rewrite (proj1 F1).
  destruct (init_ping_subnet_link_run pf s1 W1 Hnd1 Hpf1) as (s2 & H2 & O2 & F2 & W2 & K2 & S2).
  destruct (init_discover_link_run pf s2 W2) as (s3 & H3 & O3 & F3 & W3 & K3 & S3).
  exists s3. split.
  { intros A K. by rewrite (bind_ok _ _ _ _ _ H1), (bind_ok _ _ _ _ _ H2), (bind_ok _ _ _ _ _ H3). }
  split; [eauto using links_only_trans|]. split; [done|].
  split; [apply (link_ok_kept "Discover IPs" _ _ _ _ _ s2), (link_ok_kept "Ping Subnet" _ _ _ _ _ s1); done|].
  split; [by apply (link_ok_kept "Discover IPs" _ _ _ _ _ s2)|]. split; [done|].
  intros Ho1 Ho2 Ho3. specialize (S1 Ho1). subst s1.
  specialize (S2 Ho2). subst s2. by apply S3.
Qed.

Lemma field_attached_app name i l s s' :
  custom_fields s' = (custom_fields s ++ l)%list -> field_attached name i s -> field_attached name i s'.
Proof. intros Heq (f & Hf & Hn & Hi). exists f. rewrite Heq. split; [apply in_or_app; by left|done]. Qed.

(** Lines 77-133, followed by any continuation [K], when both fields
    already carry the ipaddress type. *)
Lemma init_fields_phase ip s :
  table_wf field_table s -> NoDup (map ct_key (content_types s)) ->
  has_ct "ipam" "ipaddress" ip s ->
  field_attached "Up_Down" ip s -> field_attached "dns_name" ip s ->
  exists s', (forall A (K : M A),
      (r <- init_up_down_field ;; init_dns_name_field (fst r) (snd r) ;;
       create_custom_fields (snd r) ;; K)%py s = K s') /\
    fields_only s s' /\ table_wf field_table s' /\
    (exists l, custom_fields s' = (custom_fields s ++ l)%list) /\
    has_field "Auto_discovered" s' /\
    (has_field "Auto_discovered" s -> s' = s).
Proof.
  intros Hwf Hnd Hct Hup Hdns.
  destruct (init_up_down_field_ok ip s Hwf Hnd Hct Hup) as (f & H1 & Hf & Hn & Hi).
  pose proof (init_dns_name_field_ok f ip s Hwf Hf Hi Hdns) as H2.
  destruct (in_dec string_dec "Auto_discovered" (map cf_name (custom_fields s))) as [Ha|Ha].
  - exists s. split.
    { intros A K. rewrite (bind_ok _ _ _ _ _ H1). simpl fst; simpl snd.
      by rewrite (bind_ok _ _ _ _ _ H2), (bind_ok _ _ _ _ _ (create_custom_fields_found _ s Hwf Ha)). }
    split; [by repeat split|]. split; [done|]. split; [exists []; by rewrite app_nil_r|].
    split; done.
  - destruct (create_custom_fields_new ip s Hwf Ha) as (s3 & H3 & E3 & _ & F3 & W3).
    exists s3. split.
    { intros A K. rewrite (bind_ok _ _ _ _ _ H1). simpl fst; simpl snd.
      by rewrite (bind_ok _ _ _ _ _ H2), (bind_ok _ _ _ _ _ H3). }
    split; [done|]. split; [done|]. split; [by eexists|]. split; [|done].
    unfold has_field. rewrite E3, map_app. apply in_or_app. right. by left.
Qed.

(** ** Whole function *)

Lemma tables_inv s s' :
  tables s' = tables s ->
  content_types s' = content_types s /\ tags s' = tags s /\
  custom_links s' = custom_links s /\ custom_fields s' = custom_fields s.
Proof. unfold tables. intros H. by simplify_eq. Qed.

(** The first two blocks: tags and content types. *)
Lemma init_prefix_run ip pf s :
  db_wf s -> has_ct "ipam" "ipaddress" ip s -> has_ct "ipam" "prefix" pf s ->
  exists r1 s1, init_tags s = (Ok r1, s1) /\
    get_content_types s1 = (Ok (Inst ContentTypeCls ip, Inst ContentTypeCls pf), s1) /\
    tags_only s s1 /\ table_wf tag_table s1 /\ incl (tags s) (tags s1) /\
    has_tag "online" s1 /\ has_tag "offline" s1 /\ has_tag "auto-discovered" s1 /\
    (has_tag "online" s /\ has_tag "offline" s /\ has_tag "auto-discovered" s -> s1 = s).
Proof.
  intros (Wt & _ & _ & Hnd) Hip Hpf.
  destruct (init_tags_run s Wt) as (r1 & s1 & H1 & F1 & W1 & T1 & T2 & T3 & I1 & S1).
  exists r1, s1. split; [done|]. split; [|done].
  unfold get_content_types.
  rewrite (bind_ok _ _ _ _ _ (content_type_get_frame _ _ _ ip s s1 (proj1 F1) Hnd Hip)).
  by rewrite (bind_ok _ _ _ _ _ (content_type_get_frame _ _ _ pf s s1 (proj1 F1) Hnd Hpf)).
Qed.

(** Everything a successful run establishes, from a database where the
    two content types exist and both fields carry the ipaddress type. *)
Lemma initialize_plugin_run ip pf s :
  db_wf s -> has_ct "ipam" "ipaddress" ip s -> has_ct "ipam" "prefix" pf s ->
  field_attached "Up_Down" ip s -> field_attached "dns_name" ip s ->
  exists s', initialize_plugin s = (Ok tt, s') /\ init_post ip pf s' /\ db_wf s' /\
    content_types s' = content_types s /\ incl (tags s) (tags s') /\
    (init_post ip pf s -> tables s' = tables s) /\
    (exists r1 s1, init_tags s = (Ok r1, s1) /\ tags s' = tags s1) /\
    (exists l, custom_fields s' = (custom_fields s ++ l)%list).
Proof.
  intros Hwf Hip Hpf Hup Hdns. pose proof Hwf as (Wt & Wl & Wf & Hnd).
  destruct (init_prefix_run ip pf s Hwf Hip Hpf)
    as (r1 & s1 & H1 & H2 & (C1 & L1 & LS1 & CF1 & FS1 & _) & W1 & I1 & Ta & Tb & Tc & S1).
  destruct (init_links_phase ip pf s1) as (s2 & H3 & F2 & W2 & Oa & Ob & Oc & S2);
    [eapply table_wf_ext; [..|exact Wl]; simpl; congruence|by rewrite C1
    |unfold has_ct; by rewrite C1|unfold has_ct; by rewrite C1|].
  destruct F2 as (C2 & T2 & TS2 & CF2 & FS2 & _).
  destruct (init_fields_phase ip s2) as (s3 & H4 & F3 & W3 & [l E3] & A3 & S3);
    [eapply table_wf_ext; [..|exact Wf]; simpl; congruence|by rewrite C2, C1
    |unfold has_ct; by rewrite C2, C1|unfold field_attached; by rewrite CF2, CF1
    |unfold field_attached; by rewrite CF2, CF1|].
  destruct F3 as (C3 & T3 & TS3 & L3 & LS3).
  destruct (create_tags_run s3) as (s4 & H5 & E4 & LS4 & FS4 & W4);
    [eapply table_wf_ext; [..|exact W1]; simpl; congruence|unfold has_tag; by rewrite T3, T2|].
  destruct (tables_inv _ _ E4) as (C4 & T4 & L4 & CF4).
  exists s4. unfold initialize_plugin.
  rewrite (bind_ok _ _ _ _ _ H1), (bind_ok _ _ _ _ _ H2), H3, H4. split; [done|].
  assert (Hfs : custom_fields s4 = (custom_fields s ++ l)%list) by congruence.
  split; [|split; [|split; [congruence|split]]].
  - unfold init_post, has_tag, link_ok, has_field. rewrite T4, T3, T2, L4, L3, CF4.
    split; [done|]. split; [done|]. split; [done|]. do 3 (split; [done|]).
    do 2 (split; [eapply field_attached_app; eauto|]). done.
  - split; [done|]. split; [eapply table_wf_ext; [..|exact W2]; simpl; congruence|].
    split; [eapply table_wf_ext; [..|exact W3]; simpl; congruence|]. by rewrite C4, C3, C2, C1.
  - unfold incl. rewrite T4, T3, T2. done.
  - split; [|split; [exists r1, s1; split; [done|congruence]|by exists l]].
    intros (Pa & Pb & Pc & Pd & Pe & Pf & _ & _ & Pg).
    rewrite S1 in * by done. rewrite S2 in * by done. rewrite S3 in * by done. done.
Qed.

Lemma ct_missing app model s :
  ~ In (app, model) (map ct_key (content_types s)) -> forall i, ~ has_ct app model i s.
Proof. intros Hn i Hin. apply Hn. by apply (in_map ct_key) in Hin. Qed.

Lemma has_ct_key app model i s :
  has_ct app model i s -> In (app, model) (map ct_key (content_types s)).
Proof. intros H. by apply (in_map ct_key) in H. Qed.

Lemma has_ct_unique app model i j s :
  NoDup (map ct_key (content_types s)) -> has_ct app model i s -> has_ct app model j s -> i = j.
Proof.
  intros Hnd Hi Hj. pose proof (NoDup_map_inj_in _ _ _ _ Hnd Hi Hj eq_refl) as H. by simplify_eq.
Qed.

Lemma db_wf_frame s s' :
  content_types s' = content_types s -> tags s' = tags s -> tag_seq s' = tag_seq s ->
  custom_links s' = custom_links s -> link_seq s' = link_seq s ->
  table_wf field_table s' -> db_wf s -> db_wf s'.
Proof.
  intros C T TS L LS Wf (Wt & Wl & _ & Hnd).
  split; [eapply table_wf_ext; [..|exact Wt]; simpl; congruence|].
  split; [eapply table_wf_ext; [..|exact Wl]; simpl; congruence|]. split; [done|]. by rewrite C.
Qed.

(** The two content types exist but a field lacks the ipaddress type:
    line 92 or line 107 raises. *)
Lemma initialize_plugin_attach_error ip pf s :
  db_wf s -> has_ct "ipam" "ipaddress" ip s -> has_ct "ipam" "prefix" pf s ->
  ~ (field_attached "Up_Down" ip s /\ field_attached "dns_name" ip s) ->
  exists s', initialize_plugin s = (Err content_type_add_error, s') /\ db_wf s'.
Proof.
  intros Hwf Hip Hpf Hn. pose proof Hwf as (Wt & Wl & Wf & Hnd).
  destruct (init_prefix_run ip pf s Hwf Hip Hpf)
    as (r1 & s1 & H1 & H2 & (C1 & L1 & LS1 & CF1 & FS1 & _) & W1 & _).
  destruct (init_links_phase ip pf s1) as (s2 & H3 & F2 & W2 & _);
    [eapply table_wf_ext; [..|exact Wl]; simpl; congruence|by rewrite C1
    |unfold has_ct; by rewrite C1|unfold has_ct; by rewrite C1|].
  destruct F2 as (C2 & T2 & TS2 & CF2 & FS2 & _).
  assert (Hwf2 : db_wf s2).
  { split; [eapply table_wf_ext; [..|exact W1]; simpl; congruence|]. split; [done|].
    split; [eapply table_wf_ext; [..|exact Wf]; simpl; congruence|]. by rewrite C2, C1. }
  assert (Hatt : forall n, field_attached n ip s2 <-> field_attached n ip s)
    by (intros n; unfold field_attached; by rewrite CF2, CF1).
  assert (Hip2 : has_ct "ipam" "ipaddress" ip s2) by (unfold has_ct; by rewrite C2, C1).
  unfold initialize_plugin. rewrite (bind_ok _ _ _ _ _ H1), (bind_ok _ _ _ _ _ H2), H3.
  pose proof Hwf2 as (_ & _ & Wf2 & Hnd2).
  destruct (decide (field_attached "Up_Down" ip s2)) as [Hu|Hu].
  - destruct (init_up_down_field_ok ip s2 Wf2 Hnd2 Hip2 Hu) as (f & H4 & Hf & _ & Hi).
    destruct (init_dns_name_field_type_error f ip s2 Wf2 Hf Hi) as (s3 & H5 & F3 & W3).
    { rewrite Hatt. intros Hd. apply Hn. split; [by apply Hatt|done]. }
    exists s3. rewrite (bind_ok _ _ _ _ _ H4). simpl fst; simpl snd. rewrite (bind_err _ _ _ _ _ H5).
    split; [done|]. destruct F3 as (? & ? & ? & ? & ?). by apply (db_wf_frame s2).
  - destruct (init_up_down_field_type_error ip s2 Wf2 Hnd2 Hip2 Hu) as (s3 & H4 & F3 & W3).
    exists s3. rewrite (bind_err _ _ _ _ _ H4). split; [done|].
    destruct F3 as (? & ? & ? & ? & ?). by apply (db_wf_frame s2).
Qed.

(** A content type is missing: [ContentType.objects.get] raises after the
    tags are created. *)
Lemma initialize_plugin_ct_error s :
  db_wf s -> missing_ct s ->
  exists s', initialize_plugin s = (Err (DoesNotExist "ContentType"), s') /\ db_wf s' /\
    exists r1, init_tags s = (Ok r1, s').
Proof.
  intros Hwf Hm. pose proof Hwf as (Wt & Wl & Wf & Hnd).
  destruct (init_tags_run s Wt) as (r1 & s1 & H1 & (C1 & L1 & LS1 & CF1 & FS1 & _) & W1 & _).
  assert (Hgc : get_content_types s1 = (Err (DoesNotExist "ContentType"), s1)).
  { unfold get_content_types. destruct Hm as [Hm|Hm].
    - by rewrite (bind_err _ _ _ _ _ (content_type_get_missing _ _ _ s1
                    (ct_missing _ _ s1 ltac:(by rewrite C1)))).
    - destruct (in_dec (fun x y => decide (x = y)) ("ipam", "ipaddress") (map ct_key (content_types s)))
        as [Hip|Hip].
      + apply in_map_key in Hip as [[ip a m] [Hip E]]. cbv [ct_key] in E. injection E as -> ->.
        rewrite (bind_ok _ _ _ _ _ (content_type_get_frame _ _ _ ip s s1 C1 Hnd Hip)).
        by rewrite (bind_err _ _ _ _ _ (content_type_get_missing _ _ _ s1
                      (ct_missing _ _ s1 ltac:(by rewrite C1)))).
      + by rewrite (bind_err _ _ _ _ _ (content_type_get_missing _ _ _ s1
                      (ct_missing _ _ s1 ltac:(by rewrite C1)))). }
  exists s1. unfold initialize_plugin. rewrite (bind_ok _ _ _ _ _ H1), (bind_err _ _ _ _ _ Hgc).
  split; [done|]. split; [|by exists r1].
  split; [done|]. split; [eapply table_wf_ext; [..|exact Wl]; simpl; congruence|].
  split; [eapply table_wf_ext; [..|exact Wf]; simpl; congruence|]. by rewrite C1.
Qed.

Lemma missing_ct_dec s : {missing_ct s} + {~ missing_ct s}.
Proof.
  unfold missing_ct.
  destruct (in_dec (fun x y => decide (x = y)) ("ipam", "ipaddress") (map ct_key (content_types s))),
    (in_dec (fun x y => decide (x = y)) ("ipam", "prefix") (map ct_key (content_types s))); tauto.
Qed.

Lemma present_cts s :
  ~ missing_ct s -> exists ip pf, has_ct "ipam" "ipaddress" ip s /\ has_ct "ipam" "prefix" pf s.
Proof.
  unfold missing_ct. intros Hm.
  destruct (in_dec (fun x y => decide (x = y)) ("ipam", "ipaddress") (map ct_key (content_types s)))
    as [Hip|]; [|tauto].
  destruct (in_dec (fun x y => decide (x = y)) ("ipam", "prefix") (map ct_key (content_types s)))
    as [Hpf|]; [|tauto].
  apply in_map_key in Hip as [[ip a m] [Hip E]]. apply in_map_key in Hpf as [[pf a' m'] [Hpf E']].
  cbv [ct_key] in E, E'. injection E as -> ->. injection E' as -> ->. by exists ip, pf.
Qed.

(** Every run from a well-formed database is one of three cases. *)
Lemma initialize_plugin_cases s :
  db_wf s ->
  (exists ip pf s', pre_init ip pf s /\ initialize_plugin s = (Ok tt, s') /\ db_wf s') \/
  (missing_ct s /\ exists s', initialize_plugin s = (Err (DoesNotExist "ContentType"), s') /\ db_wf s') \/
  (exists ip pf, has_ct "ipam" "ipaddress" ip s /\ has_ct "ipam" "prefix" pf s /\
     ~ (field_attached "Up_Down" ip s /\ field_attached "dns_name" ip s) /\
     exists s', initialize_plugin s = (Err content_type_add_error, s') /\ db_wf s').
Proof.
  intros Hwf. destruct (missing_ct_dec s) as [Hm|Hm].
  - right; left. split; [done|]. destruct (initialize_plugin_ct_error s Hwf Hm) as (s' & ? & ? & _). eauto.
  - destruct (present_cts s Hm) as (ip & pf & Hip & Hpf).
    destruct (decide (field_attached "Up_Down" ip s /\ field_attached "dns_name" ip s)) as [[Hu Hd]|Hn].
    + left. destruct (initialize_plugin_run ip pf s Hwf Hip Hpf Hu Hd) as (s' & ? & _ & ? & _).
      exists ip, pf, s'. split; [by repeat split|by split].
    + right; right. exists ip, pf. do 3 (split; [done|]). by apply (initialize_plugin_attach_error ip pf).
Qed.

(** * Properties of [initialize_plugin] *)

(** C1: From a well-formed database in which the content types
    [ipam.ipaddress] and [ipam.prefix] exist and the custom fields
    [Up_Down] and [dns_name] already carry the ipaddress type,
    [initialize_plugin] returns normally; afterwards the tags [online],
    [offline] and [auto-discovered] exist, the links [Ping IP], [Ping
    Subnet] and [Discover IPs] have exactly the text, URL and weight
    written in the source and are attached to their object type, both
    fields carry the ipaddress type, [Auto_discovered] exists, and the
    database is still well formed. *)
Theorem initialize_plugin_ok ip pf s :
  db_wf s -> pre_init ip pf s ->
  exists s', initialize_plugin s = (Ok tt, s') /\ init_post ip pf s' /\ db_wf s'.
Proof.
  intros Hwf (Hip & Hpf & Hu & Hd).
  destruct (initialize_plugin_run ip pf s Hwf Hip Hpf Hu Hd) as (s' & H & P & W & _). eauto.
Qed.

Lemma initialize_plugin_ok_witness :
  exists s', initialize_plugin migrated_db = (Ok tt, s') /\ init_post 7 8 s' /\ db_wf s'.
Proof. apply (initialize_plugin_ok 7 8 migrated_db); decide_by_eval. Defined.

(** C2: If the two content types exist but [Up_Down] or [dns_name] does
    not yet carry the ipaddress type, [initialize_plugin] raises
    [TypeError]: lines 92 and 107 pass [ipaddress_ct], a [ContentType]
    instance, to [object_types.add], whose target model is [ObjectType].
    In particular it fails on a database where the fields do not exist. *)
Theorem initialize_plugin_type_error ip pf s :
  db_wf s -> has_ct "ipam" "ipaddress" ip s -> has_ct "ipam" "prefix" pf s ->
  ~ (field_attached "Up_Down" ip s /\ field_attached "dns_name" ip s) ->
  exists s', initialize_plugin s = (Err content_type_add_error, s').
Proof.
  intros Hwf Hip Hpf Hn. pose proof Hwf as (_ & _ & _ & Hnd).
  destruct (initialize_plugin_cases s Hwf)
    as [(ip' & pf' & s' & (Hip' & _ & Hu & Hd) & _)|[[Hm _]|(ip' & pf' & Hip' & _ & _ & s' & H & _)]].
  - rewrite (has_ct_unique _ _ ip' ip s Hnd Hip' Hip) in Hu, Hd. tauto.
  - exfalso. destruct Hm as [Hm|Hm]; apply Hm; eapply has_ct_key; eauto.
  - eauto.
Qed.

Lemma initialize_plugin_type_error_witness :
  exists s', initialize_plugin fresh_db = (Err content_type_add_error, s').
Proof. apply (initialize_plugin_type_error 7 8 fresh_db); decide_by_eval. Defined.

(** C5: On a well-formed database, [initialize_plugin] returns normally if
    and only if both content types exist and both custom fields already
    carry the ipaddress type. *)
Theorem initialize_plugin_succeeds_iff s :
  db_wf s ->
  ((exists s', initialize_plugin s = (Ok tt, s')) <-> exists ip pf, pre_init ip pf s).
Proof.
  intros Hwf. split.
  - intros [s' Hs]. destruct (initialize_plugin_cases s Hwf)
      as [(ip & pf & _ & Hp & _)|[[_ (s'' & H & _)]|(_ & _ & _ & _ & _ & s'' & H & _)]];
      [eauto|congruence|congruence].
  - intros (ip & pf & Hip & Hpf & Hu & Hd).
    destruct (initialize_plugin_run ip pf s Hwf Hip Hpf Hu Hd) as (s' & H & _). eauto.
Qed.

Lemma initialize_plugin_succeeds_iff_witness :
  (exists s', initialize_plugin registered_db = (Ok tt, s')) <-> exists ip pf, pre_init ip pf registered_db.
Proof. apply initialize_plugin_succeeds_iff. decide_by_eval. Defined.

(** C6: When a content type is missing, [initialize_plugin] raises
    [ContentType.DoesNotExist] at line 38 or 39, after the three tags of
    lines 13-35 have been written: nothing undoes them. *)
Theorem initialize_plugin_missing_content_type s :
  db_wf s -> missing_ct s ->
  exists s', initialize_plugin s = (Err (DoesNotExist "ContentType"), s') /\
    has_tag "online" s' /\ has_tag "offline" s' /\ has_tag "auto-discovered" s'.
Proof.
  intros Hwf Hm. pose proof Hwf as (Wt & _).
  destruct (initialize_plugin_ct_error s Hwf Hm) as (s' & H & _ & r1 & H1).
  destruct (init_tags_run s Wt) as (r2 & s2 & H2 & _ & _ & Ta & Tb & Tc & _).
  rewrite H1 in H2. simplify_eq. eauto.
Qed.

Lemma initialize_plugin_missing_content_type_witness :
  exists s', initialize_plugin no_prefix_db = (Err (DoesNotExist "ContentType"), s') /\
    has_tag "online" s' /\ has_tag "offline" s' /\ has_tag "auto-discovered" s'.
Proof. apply initialize_plugin_missing_content_type; decide_by_eval. Defined.

(** C7: [initialize_plugin] is idempotent: run again on the database a
    successful run produced, it returns normally and changes none of the
    tables (only the id sequences and the output may move). *)
Theorem initialize_plugin_idempotent ip pf s s1 :
  db_wf s -> pre_init ip pf s -> initialize_plugin s = (Ok tt, s1) ->
  exists s2, initialize_plugin s1 = (Ok tt, s2) /\ tables s2 = tables s1.
Proof.
  intros Hwf (Hip & Hpf & Hu & Hd) Hrun.
  destruct (initialize_plugin_run ip pf s Hwf Hip Hpf Hu Hd) as (s1' & H & P & W & C & _).
  rewrite Hrun in H. simplify_eq.
  assert (Hip1 : has_ct "ipam" "ipaddress" ip s1') by (unfold has_ct; by rewrite C).
  assert (Hpf1 : has_ct "ipam" "prefix" pf s1') by (unfold has_ct; by rewrite C).
  pose proof P as (_ & _ & _ & _ & _ & _ & Hu1 & Hd1 & _).
  destruct (initialize_plugin_run ip pf s1' W Hip1 Hpf1 Hu1 Hd1) as (s2 & H2 & _ & _ & _ & _ & S2 & _).
  eauto.
Qed.

Lemma initialize_plugin_idempotent_witness :
  exists s2, initialize_plugin (snd (initialize_plugin migrated_db)) = (Ok tt, s2) /\
    tables s2 = tables (snd (initialize_plugin migrated_db)).
Proof.
  apply (initialize_plugin_idempotent 7 8 migrated_db); [decide_by_eval|decide_by_eval|].
  vm_compute. reflexivity.
Defined.

(** C8: [get_or_create] never updates: every tag row present before a
    successful run is still present, unchanged (a user's description or
    colour of [online] survives), unlike the links, which C1 shows are
    reset. *)
Theorem initialize_plugin_keeps_tags ip pf s s' t :
  db_wf s -> pre_init ip pf s -> initialize_plugin s = (Ok tt, s') -> In t (tags s) -> In t (tags s').
Proof.
  intros Hwf (Hip & Hpf & Hu & Hd) Hrun Ht.
  destruct (initialize_plugin_run ip pf s Hwf Hip Hpf Hu Hd) as (s1 & H & _ & _ & _ & I & _).
  rewrite Hrun in H. simplify_eq. by apply I.
Qed.

Lemma initialize_plugin_keeps_tags_witness :
  In (mkTag 1 "online" "online" "Host answers" "00FF00") (tags (snd (initialize_plugin migrated_db))).
Proof.
  apply (initialize_plugin_keeps_tags 7 8 migrated_db); [decide_by_eval|decide_by_eval| |].
  - vm_compute. reflexivity.
  - simpl. auto.
Defined.

(** C9: The [tags_data] loop of lines 135-152 never adds a tag: after a
    successful run the tags are exactly those the first block (lines
    12-35) left, because line 29 already holds a tag named
    [auto-discovered] when the loop tries to create one. *)
Theorem tags_data_loop_adds_nothing ip pf s s' r1 s1 :
  db_wf s -> pre_init ip pf s -> initialize_plugin s = (Ok tt, s') ->
  init_tags s = (Ok r1, s1) -> tags s' = tags s1.
Proof.
  intros Hwf (Hip & Hpf & Hu & Hd) Hrun Htags.
  destruct (initialize_plugin_run ip pf s Hwf Hip Hpf Hu Hd)
    as (s2 & H & _ & _ & _ & _ & _ & (r2 & s3 & H3 & T) & _).
  rewrite Hrun in H. rewrite Htags in H3. by simplify_eq.
Qed.

Lemma tags_data_loop_adds_nothing_witness :
  tags (snd (initialize_plugin migrated_db)) = tags (snd (init_tags migrated_db)).
Proof.
  set (d := tag_defaults "" "" "").
  apply (tags_data_loop_adds_nothing 7 8 migrated_db _ (ok_value (d, d, d) (fst (init_tags migrated_db))));
    [decide_by_eval|decide_by_eval|vm_compute; reflexivity|vm_compute; reflexivity].
Defined.

(** C11: An [Auto_discovered] field that exists before the run is left as
    it is: lines 126-127 find it and skip the creation, so it is never
    attached to the ipaddress type if it was not. *)
Theorem auto_discovered_not_reattached ip pf s s' f g :
  db_wf s -> pre_init ip pf s -> initialize_plugin s = (Ok tt, s') ->
  In f (custom_fields s) -> cf_name f = "Auto_discovered" ->
  In g (custom_fields s') -> cf_name g = "Auto_discovered" -> g = f.
Proof.
  intros Hwf (Hip & Hpf & Hu & Hd) Hrun Hf Hfn Hg Hgn.
  destruct (initialize_plugin_run ip pf s Hwf Hip Hpf Hu Hd)
    as (s2 & H & _ & (_ & _ & W & _) & _ & _ & _ & _ & [l E]).
  rewrite Hrun in H. simplify_eq. apply (field_name_inj s2); [done|done| |congruence].
  rewrite E. apply in_or_app. by left.
Qed.

Lemma auto_discovered_not_reattached_witness :
  unattached_auto_discovered = unattached_auto_discovered.
Proof.
  apply (auto_discovered_not_reattached 7 8 registered_db (snd (initialize_plugin registered_db))
           unattached_auto_discovered unattached_auto_discovered);
    [decide_by_eval|decide_by_eval|vm_compute; reflexivity|simpl; tauto|reflexivity
    |vm_compute; tauto|reflexivity].
Defined.

(** C12: When no field [Auto_discovered] exists, lines 124-133 create it
    from [discovered_data] (type [date], label [Auto Discovered], filter
    logic [exact], weight 101, cloneable), append it to the table, attach
    it to exactly the ipaddress type through [object_types.set], and print
    [Created custom field: Auto_discovered]. *)
Theorem create_custom_fields_creates ip s :
  table_wf field_table s -> ~ has_field "Auto_discovered" s ->
  exists s' f, create_custom_fields (Inst ContentTypeCls ip) s = (Ok tt, s') /\
    custom_fields s' = (custom_fields s ++ [f])%list /\
    cf_name f = "Auto_discovered" /\ cf_type f = "date" /\ cf_label f = "Auto Discovered" /\
    cf_filter_logic f = "exact" /\ cf_weight f = 101 /\ cf_is_cloneable f = true /\
    cf_object_types f = {[ip]} /\
    stdout s' = (stdout s ++ ["Created custom field: Auto_discovered"])%list.
Proof.
  intros Hwf Hn. destruct (create_custom_fields_new ip s Hwf Hn) as (s' & H & E & O & _).
  exists s', (discovered_row s ip). do 8 (split; [done|]). split; [simpl; set_solver|done].
Qed.

Lemma create_custom_fields_creates_witness :
  exists s' f, create_custom_fields (Inst ContentTypeCls 7) migrated_db = (Ok tt, s') /\
    custom_fields s' = (custom_fields migrated_db ++ [f])%list /\
    cf_name f = "Auto_discovered" /\ cf_type f = "date" /\ cf_label f = "Auto Discovered" /\
    cf_filter_logic f = "exact" /\ cf_weight f = 101 /\ cf_is_cloneable f = true /\
    cf_object_types f = {[7]} /\
    stdout s' = (stdout migrated_db ++ ["Created custom field: Auto_discovered"])%list.
Proof. apply create_custom_fields_creates; decide_by_eval. Defined.

(** C13: Lines 12-35 always return on a well-formed tag table, even when
    a slug is taken (taggit then picks a numbered slug); they change only
    the tags, keep every existing tag row as it was, and append exactly the
    tags among [online], [offline] and [auto-discovered] that had no row,
    in this order, with the description and colour of the source. *)
Theorem init_tags_appends_missing s :
  table_wf tag_table s ->
  exists r s' l, init_tags s = (Ok r, s') /\ tags_only s s' /\ tags s' = (tags s ++ l)%list /\
    map tag_triple l =
      List.filter (fun '(n, _, _) => negb (bool_decide (n ∈ map tag_name (tags s))))
        [("online", "Device is online", "4CAF50"); ("offline", "Device is offline", "F44336");
         ("auto-discovered", "IP was automatically discovered", "2196F3")].
Proof.
  intros Hwf. unfold init_tags.
  destruct (tag_get_or_create_run "online" "Device is online" "4CAF50" s Hwf)
    as (r1 & s1 & H1 & F1 & W1 & _).
  destruct (tag_get_or_create_run "offline" "Device is offline" "F44336" s1 W1)
    as (r2 & s2 & H2 & F2 & W2 & _).
  destruct (tag_get_or_create_run "auto-discovered" "IP was automatically discovered" "2196F3" s2 W2)
    as (r3 & s3 & H3 & F3 & _).
  destruct (tag_get_or_create_appends _ _ _ _ _ _ Hwf H1) as (l1 & E1 & M1).
  destruct (tag_get_or_create_appends _ _ _ _ _ _ W1 H2) as (l2 & E2 & M2).
  destruct (tag_get_or_create_appends _ _ _ _ _ _ W2 H3) as (l3 & E3 & M3).
  pose proof (fun n => appended_other _ _ _ _ _ n M1) as O1.
  pose proof (fun n => appended_other _ _ _ _ _ n M2) as O2.
  rewrite (taken_after_append "offline" s s1 l1 E1
             (O1 _ (proj1 (String.eqb_neq "offline" "online") eq_refl))) in M2.
  rewrite (taken_after_append "auto-discovered" s1 s2 l2 E2
             (O2 _ (proj1 (String.eqb_neq "auto-discovered" "offline") eq_refl))),
    (taken_after_append "auto-discovered" s s1 l1 E1
       (O1 _ (proj1 (String.eqb_neq "auto-discovered" "online") eq_refl))) in M3.
  rewrite (bind_ok _ _ _ _ _ H1), (bind_ok _ _ _ _ _ H2), (bind_ok _ _ _ _ _ H3).
  exists (fst r1, fst r2, fst r3), s3, (l1 ++ l2 ++ l3)%list.
  split; [done|]. split; [eauto using tags_only_trans|].
  split; [by rewrite E3, E2, E1, !app_assoc|].
  rewrite !map_app, M1, M2, M3. simpl. by do 3 case_bool_decide.
Qed.

Lemma init_tags_appends_missing_witness :
  exists r s' l, init_tags migrated_db = (Ok r, s') /\ tags_only migrated_db s' /\
    tags s' = (tags migrated_db ++ l)%list /\
    map tag_triple l =
      List.filter (fun '(n, _, _) => negb (bool_decide (n ∈ map tag_name (tags migrated_db))))
        [("online", "Device is online", "4CAF50"); ("offline", "Device is offline", "F44336");
         ("auto-discovered", "IP was automatically discovered", "2196F3")].
Proof. apply init_tags_appends_missing. decide_by_eval. Defined.

End Plugin.
