(* ===== verification/Config.v ===== *)
(** * Config: the plugin's [PluginConfig] and how NetBox validates it

    src/netbox_ping/__init__.py declares [class Config(PluginConfig)] with
    class attributes only, and exports it as [config].  NetBox reads it at
    start-up: [PluginConfig.validate(user_config, netbox_version)] refuses a
    NetBox older than [min_version] (or newer than [max_version]), requires
    the [required_settings], and fills the [default_settings] into the
    user's [PLUGINS_CONFIG] entry; the plugin code then reads a setting with
    [get_plugin_config].

    - [PluginConfig]: the attributes NetBox reads, with the values the base
      class gives the ones [Config] leaves out ([max_version = None],
      [required_settings = []]);
    - [Config], [config]: the class of __init__.py;
    - [parse_version], [version_lt]: [packaging.version.parse] on release
      versions and the order on them (trailing zeros do not count);
    - [validate], [get_plugin_config]: the host's use of the class, with
      the user's configuration as a [gmap]. *)

From S2P Require Import Prelude.
From stdpp Require Import base list gmap strings.
From Stdlib Require Import String Ascii ZArith Lia.

Open Scope string_scope.

Module PluginConf.

(** ** Values of a settings dict *)

Inductive PyVal :=
| VBool (b : bool)
| VStr (s : string)
| VInt (z : Z).

#[export] Instance PyVal_eq_dec : EqDecision PyVal.
Proof. solve_decision. Defined.

(** ** The class attributes *)

(** [module_name] is [cls.__module__], the package that defines the
    class, which NetBox's error messages name. *)
Record PluginConfig := mkPluginConfig {
  module_name : string;
  name : string;
  verbose_name : string;
  description : string;
  version : string;
  author : string;
  base_url : string;
  min_version : option string;
  max_version : option string;
  required_settings : list string;
  default_settings : list (string * PyVal) }.

(** [class Config(PluginConfig)] *)
Definition Config : PluginConfig := {|
  module_name := "netbox_ping";
  name := "netbox_ping";
  verbose_name := "NetBox Ping";
  description := "Ping IPs and subnets";
  version := "0.50";
  author := "Christian Rose";
  base_url := "netbox-ping";
  min_version := Some "4.0.0";
  max_version := None;
  required_settings := [];
  default_settings := [("exclude_virtual_interfaces", VBool true)] |}.

(** [config = Config] *)
Definition config : PluginConfig := Config.

(** ** Release versions *)

Definition is_digit (c : ascii) : bool :=
  (48 <=? nat_of_ascii c)%nat && (nat_of_ascii c <=? 57)%nat.

(** The value of a run of decimal digits, [None] on any other character. *)
Fixpoint digits_value (acc : nat) (l : list ascii) : option nat :=
  match l with
  | [] => Some acc
  | c :: l' => if is_digit c then digits_value (acc * 10 + (nat_of_ascii c - 48)) l' else None
  end.

(** [s.split(".")] on a list of characters. *)
Fixpoint split_dots (cur : list ascii) (l : list ascii) : list (list ascii) :=
  match l with
  | [] => [rev cur]
  | c :: l' => if (nat_of_ascii c =? 46)%nat then rev cur :: split_dots [] l'
               else split_dots (c :: cur) l'
  end.

Definition parse_part (p : list ascii) : option nat :=
  match p with [] => None | _ => digits_value 0 p end.

(** [version.parse(v).release] for a release version [N(.N)*]; any
    other string is refused ([InvalidVersion]). *)
Definition parse_version (v : string) : option (list nat) :=
  mapM parse_part (split_dots [] (list_ascii_of_string v)).

Definition pad (n : nat) (a : list nat) : list nat := a ++ replicate (n - List.length a) 0%nat.

Fixpoint lex_lt (a b : list nat) : bool :=
  match a, b with
  | x :: a', y :: b' => (x <? y)%nat || ((x =? y)%nat && lex_lt a' b')
  | _, _ => false
  end.

(** [<] on release versions: compared componentwise after padding the
    shorter one with zeros. *)
Definition version_lt (a b : list nat) : bool :=
  let n := Nat.max (List.length a) (List.length b) in lex_lt (pad n a) (pad n b).

(** ** [PluginConfig.validate] *)

Inductive config_error :=
| InvalidVersion (v : string)
| IncompatiblePluginError (msg : string)
| ImproperlyConfigured (msg : string).

Definition parse_or_fail (v : string) : result config_error (list nat) :=
  match parse_version v with Some r => Ok r | None => Err (InvalidVersion v) end.

Definition check_min (cls : PluginConfig) (netbox_version : string) (current : list nat) :
    result config_error unit :=
  match min_version cls with
  | None => Ok tt
  | Some mv =>
      match parse_or_fail mv with
      | Err e => Err e
      | Ok m =>
          if version_lt current m then
            Err (IncompatiblePluginError ("Plugin " ++ module_name cls ++
                   " requires NetBox minimum version " ++ mv ++
                   " (current: " ++ netbox_version ++ ")."))
          else Ok tt
      end
  end.

Definition check_max (cls : PluginConfig) (netbox_version : string) (current : list nat) :
    result config_error unit :=
  match max_version cls with
  | None => Ok tt
  | Some mv =>
      match parse_or_fail mv with
      | Err e => Err e
      | Ok m =>
          if version_lt m current then
            Err (IncompatiblePluginError ("Plugin " ++ module_name cls ++
                   " requires NetBox maximum version " ++ mv ++
                   " (current: " ++ netbox_version ++ ")."))
          else Ok tt
      end
  end.

Definition check_required (cls : PluginConfig) (user_config : gmap string PyVal) :
    result config_error unit :=
  match List.find (fun s => bool_decide (user_config !! s = None)) (required_settings cls) with
  | Some s => Err (ImproperlyConfigured ("Plugin " ++ module_name cls ++ " requires '" ++ s ++
                     "' to be present in the PLUGINS_CONFIG section of configuration.py."))
  | None => Ok tt
  end.

(** [for setting, value in default_settings.items(): if setting not in
    user_config: user_config[setting] = value] *)
Fixpoint apply_defaults (defaults : list (string * PyVal)) (user_config : gmap string PyVal) :
    gmap string PyVal :=
  match defaults with
  | [] => user_config
  | (k, v) :: ds =>
      apply_defaults ds (if bool_decide (user_config !! k = None) then <[k := v]> user_config
                         else user_config)
  end.

(** [PluginConfig.validate(user_config, netbox_version)], returning the
    user's dict after the defaults were written into it. *)
Definition validate (cls : PluginConfig) (user_config : gmap string PyVal)
    (netbox_version : string) : result config_error (gmap string PyVal) :=
  match parse_or_fail netbox_version with
  | Err e => Err e
  | Ok current =>
      match check_min cls netbox_version current with
      | Err e => Err e
      | Ok _ =>
          match check_max cls netbox_version current with
          | Err e => Err e
          | Ok _ =>
              match check_required cls user_config with
              | Err e => Err e
              | Ok _ => Ok (apply_defaults (default_settings cls) user_config)
              end
          end
      end
  end.

(** [get_plugin_config(plugin_name, parameter, default=None)] on the
    validated settings. *)
Definition get_plugin_config (settings : gmap string PyVal) (parameter : string)
    (default : option PyVal) : option PyVal :=
  match settings !! parameter with Some v => Some v | None => default end.

(** The value the defaults give [k]: the first pair for [k]. *)
Definition default_for (ds : list (string * PyVal)) (k : string) : option PyVal :=
  snd <$> List.find (fun p => bool_decide (p.1 = k)) ds.

(** ** Lemmas *)

Lemma apply_defaults_lookup ds u k :
  apply_defaults ds u !! k = match u !! k with Some v => Some v | None => default_for ds k end.
Proof.
  revert u. induction ds as [|[k0 v0] ds IH]; intros u; simpl.
  - by destruct (u !! k).
  - rewrite IH. unfold default_for. simpl. case_bool_decide as Hk0; case_bool_decide as Hk; subst.
    + by rewrite lookup_insert_eq, Hk0.
    + rewrite lookup_insert_ne by done. done.
    + by destruct (u !! k) eqn:E.
    + done.
Qed.

Lemma parse_or_fail_ok v r : parse_version v = Some r -> parse_or_fail v = Ok r.
Proof. unfold parse_or_fail. by intros ->. Qed.

Lemma parse_min_version : parse_or_fail "4.0.0" = Ok [4; 0; 0]%nat.
Proof. reflexivity. Qed.

Lemma validate_config_ok v r u :
  parse_version v = Some r -> version_lt r [4; 0; 0]%nat = false ->
  validate config u v = Ok (apply_defaults (default_settings config) u).
Proof.
  intros Hv Hlt. unfold validate. rewrite (parse_or_fail_ok v r Hv).
  unfold check_min, config, Config; cbn [min_version]. rewrite parse_min_version, Hlt. reflexivity.
Qed.


(** * Properties of the plugin configuration *)

(** C15: On a NetBox whose release version is at least 4.0.0 (the
    [min_version] of __init__.py), [validate] accepts the plugin with any
    user configuration; afterwards [exclude_virtual_interfaces] is the
    user's value when given and [True] otherwise, and every other key is
    as the user wrote it. *)
Theorem validate_config_accepts v r u :
  parse_version v = Some r -> version_lt r [4; 0; 0]%nat = false ->
  exists u', validate config u v = Ok u' /\
    get_plugin_config u' "exclude_virtual_interfaces" None =
      Some (match u !! "exclude_virtual_interfaces" with Some x => x | None => VBool true end) /\
    (forall k, k <> "exclude_virtual_interfaces" -> u' !! k = u !! k).
Proof.
  intros Hv Hlt. rewrite (validate_config_ok v r u Hv Hlt). eexists. split; [reflexivity|]. split.
  - unfold get_plugin_config. rewrite apply_defaults_lookup. by destruct (u !! _).
  - intros k Hk. rewrite apply_defaults_lookup. destruct (u !! k); [done|].
    unfold default_for. simpl. by rewrite bool_decide_false by congruence.
Qed.

Lemma validate_config_accepts_witness :
  exists u', validate config (<["exclude_virtual_interfaces" := VBool false]> ∅) "4.1" = Ok u' /\
    get_plugin_config u' "exclude_virtual_interfaces" None =
      Some (match (<["exclude_virtual_interfaces" := VBool false]> ∅ : gmap string PyVal)
                    !! "exclude_virtual_interfaces" with Some x => x | None => VBool true end) /\
    (forall k, k <> "exclude_virtual_interfaces" ->
       u' !! k = (<["exclude_virtual_interfaces" := VBool false]> ∅ : gmap string PyVal) !! k).
Proof. apply (validate_config_accepts "4.1" [4; 1]%nat); reflexivity. Defined.

(** C16: On a NetBox older than 4.0.0, [validate] refuses the plugin with
    [IncompatiblePluginError], whatever the user configured. *)
Theorem validate_config_rejects_old v r u :
  parse_version v = Some r -> version_lt r [4; 0; 0]%nat = true ->
  validate config u v =
    Err (IncompatiblePluginError ("Plugin netbox_ping requires NetBox minimum version 4.0.0 (current: "
                                  ++ v ++ ")."))%string.
Proof.
  intros Hv Hlt. unfold validate. rewrite (parse_or_fail_ok v r Hv).
  unfold check_min, config, Config; cbn [min_version]. rewrite parse_min_version, Hlt. reflexivity.
Qed.

Lemma validate_config_rejects_old_witness :
  validate config ∅ "3.7.8" =
    Err (IncompatiblePluginError ("Plugin netbox_ping requires NetBox minimum version 4.0.0 (current: "
                                  ++ "3.7.8" ++ ")."))%string.
Proof. apply (validate_config_rejects_old "3.7.8" [3; 7; 8]%nat); reflexivity. Defined.

End PluginConf.
