(* ===== verification/Migrations.v ===== *)
(** * Migrations: the plugin's migration files and Django's executor

    src/netbox_ping/migrations holds two migrations:
    - 0001_initial: [CreateModel] of [PluginSettingsModel] (lines 10-24);
    - 0003_add_dns_name_field: [RunPython(create_dns_name_field,
      reverse_code=noop)], depending on [('netbox_ping',
      '0002_add_dns_fields')], a migration the directory does not hold.

    [create_dns_name_field] (lines 4-30) is written over the same database
    model as [initialize_plugin] (Orm.v): it gets or creates the [Up_Down]
    field and attaches the [ObjectType] of [ipam.ipaddress], skipping the
    attachment when that type is missing.  Unlike lines 92 and 107 of
    plugin.py it passes an [ObjectType] instance, so it cannot raise
    [TypeError].

    Django's side is modelled as the environment: [check_consistency] is
    the loader's [validate_consistency] (a dependency on a migration that
    does not exist raises [NodeNotFoundError]); [migrate] applies, in a
    dependency order, every migration not yet applied, each one atomically
    (PostgreSQL runs a migration in a transaction: a failing migration
    leaves the database as it was). *)

From S2P Require Import Prelude Orm Taggit Plugin.
From stdpp Require Import base list gmap strings.
From Stdlib Require Import String Ascii ZArith Lia.

Open Scope string_scope.

Module Migrations.
Import Orm Taggit Plugin.

(** ** Schema operations *)

Inductive FieldKind := BigAutoField | DateTimeField | JSONField | BooleanField.

Inductive FieldDefault := NoDefault | DefaultDict | DefaultBool (b : bool).

(** A [models.<Kind>Field(...)] with the options the migration passes. *)
Record ModelField := mkModelField {
  fld_name : string;
  fld_kind : FieldKind;
  fld_auto_created : bool;
  fld_primary_key : bool;
  fld_serialize : bool;
  fld_auto_now_add : bool;
  fld_auto_now : bool;
  fld_blank : bool;
  fld_null : bool;
  fld_default : FieldDefault;
  fld_help_text : string;
  fld_verbose_name : string }.

Record CreateModelOp := mkCreateModelOp {
  cm_name : string;
  cm_fields : list ModelField;
  cm_verbose_name : string;
  cm_verbose_name_plural : string;
  cm_ordering : list string }.

Inductive Operation :=
| CreateModel (m : CreateModelOp)
| RunPython (code : M unit) (reverse_code : M unit).

Record Migration := mkMigration {
  mig_app : string;
  mig_name : string;
  mig_initial : bool;
  mig_dependencies : list (string * string);
  mig_operations : list Operation }.

Definition mig_key (m : Migration) : string * string := (mig_app m, mig_name m).

(** ** 0001_initial *)

Definition plugin_settings_fields : list ModelField := [
  mkModelField "id" BigAutoField true true false false false false false NoDefault "" "";
  mkModelField "created" DateTimeField false false true true false false false NoDefault "" "";
  mkModelField "last_updated" DateTimeField false false true false true false false NoDefault "" "";
  mkModelField "custom_field_data" JSONField false false true false false true true DefaultDict "" "";
  mkModelField "update_tags" BooleanField false false true false false false false (DefaultBool true)
    "Whether to update tags when scanning IPs" "Update Tags"].

Definition create_plugin_settings_model : CreateModelOp :=
  mkCreateModelOp "PluginSettingsModel" plugin_settings_fields
    "Plugin Settings" "Plugin Settings" ["pk"].

Definition migration_0001 : Migration :=
  mkMigration "netbox_ping" "0001_initial" true [] [CreateModel create_plugin_settings_model].

(** ** 0003_add_dns_name_field *)

(** [CustomField(name='Up_Down', **defaults)] with [required=False]. *)
Definition up_down_defaults : CustomField :=
  mkCustomField 0 "Up_Down" "boolean" "Up/Down Status" "Current up/down status of the IP"
    false "loose" "always" "yes" false 100 ∅.

(** [create_dns_name_field(apps, schema_editor)]: the [try] covers the
    lookup of the [ObjectType] and the guarded [add]. *)
Definition create_dns_name_field : M unit :=
  (cf <- get_or_create field_table (key_is cf_name "Up_Down") up_down_defaults
           (objects_create field_table) ;;
   try_except
     (ipaddress_object_type <- content_type_get ObjectTypeCls "ipam" "ipaddress" ;;
      attach_if_missing (fst cf) ipaddress_object_type)%py
     (is_DoesNotExist "ObjectType")
     (fun _ => ret tt))%py.

(** [migrations.RunPython.noop] *)
Definition noop : M unit := ret tt.

Definition migration_0003 : Migration :=
  mkMigration "netbox_ping" "0003_add_dns_name_field" false
    [("netbox_ping", "0002_add_dns_fields")]
    [RunPython create_dns_name_field noop].

(** The migrations the package [netbox_ping.migrations] holds. *)
Definition netbox_ping_migrations : list Migration := [migration_0001; migration_0003].

(** ** Django's loader and executor *)

Inductive mig_error :=
| NodeNotFoundError (origin parent : string * string)
| ProgrammingError (msg : string)
| PythonError (e : exn).

(** The database with its tables and the recorded migrations. *)
Record MigState := mkMigState {
  ms_tables : list (string * list string);
  ms_applied : list (string * string);
  ms_db : Db }.

(** [MigrationGraph.validate_consistency]: the first dependency on a
    migration that is not in the graph. *)
Fixpoint check_consistency_in (all : list (string * string)) (ms : list Migration) :
    result mig_error unit :=
  match ms with
  | [] => Ok tt
  | m :: ms' =>
      match List.find (fun d => negb (bool_decide (d ∈ all))) (mig_dependencies m) with
      | Some d => Err (NodeNotFoundError (mig_key m) d)
      | None => check_consistency_in all ms'
      end
  end.

Definition check_consistency (ms : list Migration) : result mig_error unit :=
  check_consistency_in (map mig_key ms) ms.

(** The table of a model: [<app_label>_<model name in lower case>]. *)
Definition table_name (app : string) (m : CreateModelOp) : string :=
  app ++ "_" ++ string_of_list_ascii (map lower (list_ascii_of_string (cm_name m))).

Definition apply_operation (app : string) (op : Operation) (st : MigState) :
    result mig_error MigState :=
  match op with
  | CreateModel m =>
      let t := table_name app m in
      if bool_decide (t ∈ map fst (ms_tables st)) then
        Err (ProgrammingError ("relation " ++ t ++ " already exists"))
      else Ok (mkMigState (ms_tables st ++ [(t, map fld_name (cm_fields m))]) (ms_applied st) (ms_db st))
  | RunPython code _ =>
      match code (ms_db st) with
      | (Ok _, db') => Ok (mkMigState (ms_tables st) (ms_applied st) db')
      | (Err e, _) => Err (PythonError e)
      end
  end.

Fixpoint apply_operations (app : string) (ops : list Operation) (st : MigState) :
    result mig_error MigState :=
  match ops with
  | [] => Ok st
  | op :: ops' =>
      match apply_operation app op st with
      | Ok st' => apply_operations app ops' st'
      | Err e => Err e
      end
  end.

(** One migration in its transaction; on success it is recorded in
    [django_migrations]. *)
Definition apply_migration (m : Migration) (st : MigState) : result mig_error MigState :=
  match apply_operations (mig_app m) (mig_operations m) st with
  | Ok st' => Ok (mkMigState (ms_tables st') (ms_applied st' ++ [mig_key m]) (ms_db st'))
  | Err e => Err e
  end.

(** The first migration not yet applied whose dependencies all are. *)
Definition next_ready (ms : list Migration) (st : MigState) : option Migration :=
  List.find (fun m => negb (bool_decide (mig_key m ∈ ms_applied st)) &&
                      forallb (fun d => bool_decide (d ∈ ms_applied st)) (mig_dependencies m)) ms.

(** Apply ready migrations until none is left; every step records one
    more migration, so [length ms] steps are enough. *)
Fixpoint run_plan (fuel : nat) (ms : list Migration) (st : MigState) : result mig_error MigState :=
  match fuel with
  | O => Ok st
  | S fuel' =>
      match next_ready ms st with
      | None => Ok st
      | Some m =>
          match apply_migration m st with
          | Ok st' => run_plan fuel' ms st'
          | Err e => Err e
          end
      end
  end.

(** [manage.py migrate]: load and check the graph, then run the plan. *)
Definition migrate (ms : list Migration) (st : MigState) : result mig_error MigState :=
  match check_consistency ms with
  | Err e => Err e
  | Ok _ => run_plan (List.length ms) ms st
  end.

(** ** Predicates and sample states *)

(** The fields of another name than [name] are the same rows. *)
Definition fields_kept (name : string) (s s' : Db) : Prop :=
  forall g, cf_name g <> name -> (In g (custom_fields s') <-> In g (custom_fields s)).

(** After 0002 in an older install: [dns_name] carries the ipaddress
    type, [Up_Down] exists without it. *)
Definition dns_only_db : Db :=
  mkDb sample_content_types (tags migrated_db) (tag_seq migrated_db)
    (custom_links migrated_db) (link_seq migrated_db)
    [mkCustomField 1 "Up_Down" "boolean" "Up/Down Status" "Current up/down status of the IP"
       false "loose" "always" "yes" false 100 ∅;
     mkCustomField 2 "dns_name" "text" "DNS Name" "Resolved DNS name for this IP"
       false "loose" "always" "yes" false 100 ({[7%Z]} : gset Z)] 3 [].

Definition empty_schema : MigState := mkMigState [] [] fresh_db.

(** A stand-in for the missing 0002_add_dns_fields: any [RunPython]
    migration that depends on 0001. *)
Definition migration_0002 (code : M unit) : Migration :=
  mkMigration "netbox_ping" "0002_add_dns_fields" false [("netbox_ping", "0001_initial")]
    [RunPython code noop].

(** The table and columns 0001 creates. *)
Definition plugin_settings_table : string * list string :=
  ("netbox_ping_pluginsettingsmodel",
   ["id"; "created"; "last_updated"; "custom_field_data"; "update_tags"]).

(** ** Lemmas *)

Lemma fields_only_trans s1 s2 s3 : fields_only s1 s2 -> fields_only s2 s3 -> fields_only s1 s3.
Proof. unfold fields_only. intuition congruence. Qed.

Lemma fields_kept_trans name s1 s2 s3 :
  fields_kept name s1 s2 -> fields_kept name s2 s3 -> fields_kept name s1 s3.
Proof. intros H12 H23 g Hg. by rewrite (H23 g Hg), (H12 g Hg). Qed.

Lemma fields_kept_attached name n i s s' :
  fields_kept name s s' -> n <> name -> (field_attached n i s' <-> field_attached n i s).
Proof.
  intros K Hn. split; intros (g & Hg & Hgn & Hi); exists g; (split; [|done]);
    apply (K g); congruence.
Qed.

Lemma field_pk_inj s o r :
  table_wf field_table s -> In o (custom_fields s) -> In r (custom_fields s) ->
  cf_pk o = cf_pk r -> o = r.
Proof. intros (Hpk & _) Ho Hr. by apply (NoDup_map_inj_in _ _ o r Hpk). Qed.

(** Lines 27-28: the guarded [add] of an [ObjectType] instance attaches
    the type to the field and to no other row. *)
Lemma attach_object_type_run f i s :
  table_wf field_table s -> In f (custom_fields s) ->
  exists s', attach_if_missing f (Inst ObjectTypeCls i) s = (Ok tt, s') /\
    field_attached (cf_name f) i s' /\ fields_only s s' /\ stdout s' = stdout s /\
    table_wf field_table s' /\ fields_kept (cf_name f) s s' /\ (i ∈ cf_object_types f -> s' = s).
Proof.
  intros Hwf Hf. unfold attach_if_missing. change (obj_pk (Inst ObjectTypeCls i)) with i.
  rewrite (bind_ok _ _ _ _ _ (m2m_filter_exists_run field_table field_object_types f i s Hwf Hf)).
  case_bool_decide as Hi.
  - exists s. split; [done|]. split; [by exists f|]. split; [by repeat split|].
    do 2 (split; [done|]). split; [by intros g _|done].
  - rewrite (m2m_add_one _ _ _ _ i (target_id_object_type i)), rel_update_run.
    eexists. split; [done|]. split.
    { eexists. split; [apply (rel_rows_owner field_table field_object_types), Hf|].
      simpl. split; [done|]. set_solver. }
    split; [by repeat split|]. split; [done|].
    split; [apply (rel_update_wf _ field_table_laws _ field_rel_laws), Hwf|].
    split; [|by intros H; destruct Hi]. intros g Hg. simpl. split.
    + intros Hin. destruct (rel_rows_in field_table field_object_types _ _ _ _ Hin) as [o [Ho ->]].
      case_bool_decide as Hpk; [|done]. exfalso. apply Hg. simpl.
      by rewrite (field_pk_inj s o f Hwf Ho Hf Hpk).
    + intros Hin. apply (rel_rows_keep field_table); [done|]. intros Hpk. apply Hg.
      by rewrite (field_pk_inj s g f Hwf Hin Hf Hpk).
Qed.

(** [create_dns_name_field] on any database with well-formed fields
    returns: the [Up_Down] field exists afterwards and carries the
    ipaddress type whenever that type exists; no other field changes,
    and a database that already had both is left as it was. *)
Lemma create_dns_name_field_run s :
  table_wf field_table s -> NoDup (map ct_key (content_types s)) ->
  exists s', create_dns_name_field s = (Ok tt, s') /\ fields_only s s' /\ stdout s' = stdout s /\
    table_wf field_table s' /\ has_field "Up_Down" s' /\ fields_kept "Up_Down" s s' /\
    (forall ip, has_ct "ipam" "ipaddress" ip s -> field_attached "Up_Down" ip s') /\
    (has_field "Up_Down" s -> (forall ip, has_ct "ipam" "ipaddress" ip s -> field_attached "Up_Down" ip s) ->
     s' = s).
Proof.
  intros Hwf Hnd.
  destruct (field_get_or_create_run "Up_Down" "boolean" "Up/Down Status"
              "Current up/down status of the IP" s Hwf)
    as (f & b & s1 & H1 & Hf & Hn & F1 & O1 & W1 & I1 & S1 & E1).
  assert (K1 : fields_kept "Up_Down" s s1).
  { intros g Hg. rewrite I1. split; [intros [?| ->]; [done|congruence]|by left]. }
  unfold create_dns_name_field.
  change (get_or_create field_table (key_is cf_name "Up_Down") up_down_defaults
            (objects_create field_table))
    with (field_get_or_create "Up_Down" "boolean" "Up/Down Status" "Current up/down status of the IP").
  rewrite (bind_ok _ _ _ _ _ H1). simpl fst.
  destruct (in_dec (fun x y => decide (x = y)) ("ipam", "ipaddress") (map ct_key (content_types s)))
    as [Hip|Hip].
  - apply in_map_key in Hip as [[ip a m] [Hip E]]. cbv [ct_key] in E. injection E as -> ->.
    destruct (attach_object_type_run f ip s1 W1 Hf) as (s2 & H2 & A2 & F2 & O2 & W2 & K2 & S2).
    rewrite Hn in A2, K2. exists s2. unfold try_except.
    rewrite (bind_ok _ _ _ _ _ (content_type_get_frame ObjectTypeCls _ _ ip s s1 (proj1 F1) Hnd Hip)), H2.
    split; [done|]. split; [eauto using fields_only_trans|]. split; [congruence|].
    split; [done|]. split; [by apply (has_field_of_attached _ ip)|].
    split; [eauto using fields_kept_trans|]. split.
    + intros ip' Hip'. by rewrite (has_ct_unique _ _ ip' ip s Hnd Hip' Hip).
    + intros Hu Hatt. specialize (S1 Hu). subst s1. apply S2.
      exact (proj2 (field_get_or_create_attached _ _ _ _ ip s f b s Hwf H1 Hf Hn (fun _ => eq_refl) E1)
                   (Hatt ip Hip)).
  - exists s1. unfold try_except.
    rewrite (bind_err _ _ _ _ _ (content_type_get_missing ObjectTypeCls _ _ s1
               (ct_missing _ _ s1 ltac:(by rewrite (proj1 F1))))).
    split; [reflexivity|]. do 3 (split; [done|]). split; [rewrite <- Hn; by apply in_map|].
    split; [done|]. split; [|intros Hu _; by apply S1].
    intros ip Hct. exfalso. by apply (ct_missing _ _ s Hip ip).
Qed.

Lemma create_dns_name_field_wf s :
  db_wf s -> exists s', create_dns_name_field s = (Ok tt, s') /\ db_wf s' /\
    content_types s' = content_types s /\ has_field "Up_Down" s' /\ fields_kept "Up_Down" s s' /\
    (forall ip, has_ct "ipam" "ipaddress" ip s -> field_attached "Up_Down" ip s') /\
    (has_field "Up_Down" s -> (forall ip, has_ct "ipam" "ipaddress" ip s -> field_attached "Up_Down" ip s) ->
     s' = s).
Proof.
  intros Hwf. pose proof Hwf as (_ & _ & Wf & Hnd).
  destruct (create_dns_name_field_run s Wf Hnd) as (s' & H & (C & T & TS & L & LS) & _ & W & R).
  exists s'. split; [done|]. split; [by apply (db_wf_frame s)|]. by split.
Qed.

Lemma plugin_settings_table_name :
  table_name "netbox_ping" create_plugin_settings_model = "netbox_ping_pluginsettingsmodel".
Proof. reflexivity. Qed.

(** Applying 0001 to a database without its table creates it. *)
Lemma apply_migration_0001_run st :
  ~ In "netbox_ping_pluginsettingsmodel" (map fst (ms_tables st)) ->
  apply_migration migration_0001 st =
    Ok (mkMigState (ms_tables st ++ [plugin_settings_table])
                   (ms_applied st ++ [("netbox_ping", "0001_initial")]) (ms_db st)).
Proof.
  intros Hn. unfold apply_migration, apply_operations, apply_operation, migration_0001.
  cbn [mig_app mig_operations mig_key]. rewrite plugin_settings_table_name.
  rewrite bool_decide_false; [reflexivity|]. by rewrite list_elem_of_In.
Qed.

(** A migration of one [RunPython] operation whose code returns. *)
Lemma apply_migration_run_python m code rev st d' :
  mig_operations m = [RunPython code rev] -> code (ms_db st) = (Ok tt, d') ->
  apply_migration m st = Ok (mkMigState (ms_tables st) (ms_applied st ++ [mig_key m]) d').
Proof. intros Hops Hc. unfold apply_migration. rewrite Hops. simpl. by rewrite Hc. Qed.

Lemma run_plan_step fuel ms st m st' :
  apply_migration m st = Ok st' -> next_ready ms st = Some m ->
  run_plan (S fuel) ms st = run_plan fuel ms st'.
Proof. intros Ha Hn. simpl. by rewrite Hn, Ha. Qed.

(** The loader finds a dependency of some migration that is not in the
    graph, and reports one. *)
Lemma check_consistency_in_missing all ms m d :
  In m ms -> In d (mig_dependencies m) -> ~ In d all ->
  exists o p, check_consistency_in all ms = Err (NodeNotFoundError o p) /\ ~ In p all.
Proof.
  induction ms as [|m0 ms IH]; simpl; [done|]. intros Hm Hd Hn.
  destruct (List.find _ (mig_dependencies m0)) as [p|] eqn:F.
  - apply find_some in F as [_ Hp]. apply negb_true_iff, bool_decide_eq_false in Hp.
    exists (mig_key m0), p. split; [done|]. by rewrite <- list_elem_of_In.
  - destruct Hm as [<-|Hm]; [|by apply IH].
    exfalso. eapply find_none in F; [|exact Hd].
    apply negb_false_iff, bool_decide_eq_true in F. by apply Hn, list_elem_of_In.
Qed.

(** * Properties of the migrations *)

(** C3: The migrations of the plugin cannot be loaded without a
    migration [('netbox_ping', '0002_add_dns_fields')]: every set of
    migrations that holds 0003 (line 34 names that dependency) and no 0002
    makes [manage.py migrate] raise [NodeNotFoundError] on a parent that is
    not in the set, before any migration is applied.  The repository's own
    set, 0001 and 0003, is such a set. *)
Theorem migrations_without_0002_fail ms st :
  In migration_0003 ms -> ~ In ("netbox_ping", "0002_add_dns_fields") (map mig_key ms) ->
  exists origin parent, migrate ms st = Err (NodeNotFoundError origin parent) /\
    ~ In parent (map mig_key ms).
Proof.
  intros Hin Hn. unfold migrate, check_consistency.
  destruct (check_consistency_in_missing (map mig_key ms) ms migration_0003
              ("netbox_ping", "0002_add_dns_fields") Hin (or_introl eq_refl) Hn) as (o & p & E & Hp).
  rewrite E. eauto.
Qed.

Lemma migrations_without_0002_fail_witness :
  exists origin parent,
    migrate netbox_ping_migrations empty_schema = Err (NodeNotFoundError origin parent) /\
    ~ In parent (map mig_key netbox_ping_migrations).
Proof.
  apply migrations_without_0002_fail; [simpl; auto|rewrite <- list_elem_of_In; decide_by_eval].
Defined.

(** C10: [create_dns_name_field] always returns on a well-formed
    database (a missing ipaddress type is caught at line 29); afterwards
    [Up_Down] exists, carries the ipaddress type whenever that type
    exists, every other field is attached exactly as before, and the
    database is still well formed. *)
Theorem create_dns_name_field_attaches s :
  db_wf s ->
  exists s', create_dns_name_field s = (Ok tt, s') /\ db_wf s' /\ has_field "Up_Down" s' /\
    (forall ip, has_ct "ipam" "ipaddress" ip s -> field_attached "Up_Down" ip s') /\
    (forall n i, n <> "Up_Down" -> (field_attached n i s' <-> field_attached n i s)).
Proof.
  intros Hwf. destruct (create_dns_name_field_wf s Hwf) as (s' & H & W & _ & Hu & K & A & _).
  exists s'. do 4 (split; [done|]). intros n i Hn. by apply (fields_kept_attached "Up_Down").
Qed.

Lemma create_dns_name_field_attaches_witness :
  exists s', create_dns_name_field fresh_db = (Ok tt, s') /\ db_wf s' /\ has_field "Up_Down" s' /\
    (forall ip, has_ct "ipam" "ipaddress" ip fresh_db -> field_attached "Up_Down" ip s') /\
    (forall n i, n <> "Up_Down" -> (field_attached n i s' <-> field_attached n i fresh_db)).
Proof. apply create_dns_name_field_attaches. decide_by_eval. Defined.

(** C14: [create_dns_name_field] is idempotent: run again on the database
    it produced, it returns and writes nothing. *)
Theorem create_dns_name_field_idempotent s s1 :
  db_wf s -> create_dns_name_field s = (Ok tt, s1) -> create_dns_name_field s1 = (Ok tt, s1).
Proof.
  intros Hwf Hrun. destruct (create_dns_name_field_wf s Hwf) as (s' & H & W & C & Hu & _ & A & _).
  rewrite Hrun in H. simplify_eq.
  destruct (create_dns_name_field_wf s' W) as (s'' & H' & _ & _ & _ & _ & _ & S).
  rewrite H', S; [done|done|]. intros ip Hip. apply A. unfold has_ct in *. by rewrite <- C.
Qed.

Lemma create_dns_name_field_idempotent_witness :
  create_dns_name_field (snd (create_dns_name_field fresh_db)) =
    (Ok tt, snd (create_dns_name_field fresh_db)).
Proof.
  apply (create_dns_name_field_idempotent fresh_db); [decide_by_eval|vm_compute; reflexivity].
Defined.

(** C4: Migration 0003 attaches [Up_Down] correctly, but after it
    [initialize_plugin] still returns normally only if [dns_name] already
    carried the ipaddress type: otherwise line 107 raises [TypeError]. *)
Theorem migration_then_plugin_iff ip pf s s1 :
  db_wf s -> has_ct "ipam" "ipaddress" ip s -> has_ct "ipam" "prefix" pf s ->
  create_dns_name_field s = (Ok tt, s1) ->
  ((exists s2, initialize_plugin s1 = (Ok tt, s2)) <-> field_attached "dns_name" ip s).
Proof.
  intros Hwf Hip Hpf Hrun.
  destruct (create_dns_name_field_wf s Hwf) as (s' & H & W & C & _ & K & A & _).
  rewrite Hrun in H. simplify_eq.
  assert (Hip1 : has_ct "ipam" "ipaddress" ip s') by (unfold has_ct in *; by rewrite C).
  assert (Hpf1 : has_ct "ipam" "prefix" pf s') by (unfold has_ct in *; by rewrite C).
  rewrite <- (fields_kept_attached "Up_Down" "dns_name" ip s s' K) by done.
  split.
  - intros [s2 Hs2]. pose proof W as (_ & _ & _ & Hnd).
    destruct (initialize_plugin_cases s' W)
      as [(ip' & pf' & _ & (Hip' & _ & _ & Hd) & _)|[[_ (s3 & H3 & _)]|(_ & _ & _ & _ & _ & s3 & H3 & _)]];
      [|congruence|congruence].
    by rewrite (has_ct_unique _ _ ip ip' s' Hnd Hip1 Hip').
  - intros Hd. destruct (initialize_plugin_run ip pf s' W Hip1 Hpf1 (A ip Hip) Hd) as (s2 & H2 & _).
    eauto.
Qed.

Lemma migration_then_plugin_iff_witness :
  (exists s2, initialize_plugin (snd (create_dns_name_field dns_only_db)) = (Ok tt, s2)) <->
    field_attached "dns_name" 7 dns_only_db.
Proof.
  apply (migration_then_plugin_iff 7 8 dns_only_db);
    [decide_by_eval|decide_by_eval|decide_by_eval|vm_compute; reflexivity].
Defined.

(** C17: With the missing 0002 supplied (any migration depending on 0001
    whose code returns and keeps the database well formed), [migrate] on a
    database where nothing is applied runs 0001, 0002 and 0003 in this
    order, creates the settings table, and leaves [Up_Down] attached to the
    ipaddress type. *)
Theorem migrate_with_0002_applies_all code st :
  ms_applied st = [] -> ~ In "netbox_ping_pluginsettingsmodel" (map fst (ms_tables st)) ->
  db_wf (ms_db st) ->
  (forall d, db_wf d -> exists d', code d = (Ok tt, d') /\ db_wf d' /\ content_types d' = content_types d) ->
  exists st', migrate [migration_0001; migration_0002 code; migration_0003] st = Ok st' /\
    ms_applied st' = [("netbox_ping", "0001_initial"); ("netbox_ping", "0002_add_dns_fields");
                      ("netbox_ping", "0003_add_dns_name_field")] /\
    In plugin_settings_table (ms_tables st') /\
    (forall ip, has_ct "ipam" "ipaddress" ip (ms_db st) -> field_attached "Up_Down" ip (ms_db st')).
Proof.
  destruct st as [tabs app d]. cbn [ms_applied ms_tables ms_db]. intros -> Hn Hwf Hcode.
  destruct (Hcode d Hwf) as (d2 & H2 & W2 & C2).
  destruct (create_dns_name_field_wf d2 W2) as (d3 & H3 & _ & _ & _ & _ & A3 & _).
  pose proof (apply_migration_0001_run (mkMigState tabs [] d) Hn) as A1.
  pose proof (apply_migration_run_python (migration_0002 code) code noop
                (mkMigState (tabs ++ [plugin_settings_table]) [("netbox_ping", "0001_initial")] d)
                d2 eq_refl H2) as A2.
  pose proof (apply_migration_run_python migration_0003 create_dns_name_field noop
                (mkMigState (tabs ++ [plugin_settings_table])
                   [("netbox_ping", "0001_initial"); ("netbox_ping", "0002_add_dns_fields")] d2)
                d3 eq_refl H3) as A3'.
  unfold migrate. cbn -[run_plan].
  rewrite (run_plan_step _ _ _ _ _ A1) by reflexivity.
  rewrite (run_plan_step _ _ _ _ _ A2) by reflexivity.
  rewrite (run_plan_step _ _ _ _ _ A3') by reflexivity.
  eexists. split; [reflexivity|]. split; [reflexivity|]. split.
  - simpl. apply in_or_app. right. by left.
  - intros ip Hip. apply A3. unfold has_ct in *. by rewrite C2.
Qed.

Lemma migrate_with_0002_applies_all_witness :
  exists st', migrate [migration_0001; migration_0002 noop; migration_0003] empty_schema = Ok st' /\
    ms_applied st' = [("netbox_ping", "0001_initial"); ("netbox_ping", "0002_add_dns_fields");
                      ("netbox_ping", "0003_add_dns_name_field")] /\
    In plugin_settings_table (ms_tables st') /\
    (forall ip, has_ct "ipam" "ipaddress" ip (ms_db empty_schema) ->
       field_attached "Up_Down" ip (ms_db st')).
Proof.
  apply migrate_with_0002_applies_all; [reflexivity|simpl; tauto|decide_by_eval|].
  intros d Hd. exists d. split; [reflexivity|]. split; [exact Hd|reflexivity].
Defined.

End Migrations.
